(** * MSiD labs: polynomial least squares (lab3/lss.py) and classification
      metrics (lab4/classification.py)

    A shallow embedding of the two Python modules and the properties their
    specification states about them.

    Conventions of the embedding.
    - A Python [int] is a [Z]; a Python [list] is a [list]; a [str] is a
      [string].
    - A call that can raise returns a [result]: [Ok v] or [Raise e], with [e]
      the exception.
    - The coefficients given to [print_polynomial] are binary64 numbers
      (Rocq's primitive [float]); [format(x, '.pf')] is their correctly
      rounded decimal rendering.
    - The quotient of two Python ints ([/]) is kept as the exact rational
      ([Q]) that Python then rounds to the nearest binary64.
    - The numeric code of lss.py (numpy arrays of float64, [np.vander], [@],
      [np.linalg.inv], [**]) is modelled on binary64 numbers, every operation
      rounded as IEEE 754 does; what the source leaves to its libraries is
      fixed at the start of that part. *)

From Stdlib Require Import String Ascii ZArith NArith QArith List Bool Lia.
From Stdlib Require Import Lqa.
From Stdlib Require DecimalString.
From Corelib Require Import Floats.PrimFloat.
From Stdlib Require Import Floats.SpecFloat Floats.FloatOps.
Import ListNotations.

(** ** Python exceptions and results *)

Module Py.

Inductive exn : Type :=
| ValueError (msg : string)
| IndexError
| ZeroDivisionError
| LinAlgError (msg : string).

Inductive result (A : Type) : Type :=
| Ok (a : A)
| Raise (e : exn).

Arguments Ok {A} a.
Arguments Raise {A} e.

Definition bind {A B : Type} (r : result A) (k : A -> result B) : result B :=
  match r with
  | Ok a => k a
  | Raise e => Raise e
  end.

Definition fmap {A B : Type} (f : A -> B) (r : result A) : result B :=
  bind r (fun a => Ok (f a)).

Module Notations.
Notation "x <- c1 ;; c2" := (bind c1 (fun x => c2))
  (at level 61, c1 at next level, right associativity).
End Notations.
Import Notations.

Local Open Scope Z_scope.

(** [l[i]] for a list of length [len]: the position that index [i] denotes;
    a negative index counts from the end, anything outside
    [-len <= i < len] is an [IndexError]. *)
Definition index (len i : Z) : result nat :=
  if (0 <=? i) && (i <? len) then Ok (Z.to_nat i)
  else if (- len <=? i) && (i <? 0) then Ok (Z.to_nat (len + i))
  else Raise IndexError.

Definition getitem {A : Type} (l : list A) (i : Z) : result A :=
  k <- index (Z.of_nat (length l)) i ;;
  match nth_error l k with
  | Some a => Ok a
  | None => Raise IndexError
  end.

Fixpoint update {A : Type} (l : list A) (k : nat) (a : A) : list A :=
  match l, k with
  | [], _ => []
  | _ :: t, O => a :: t
  | h :: t, S k' => h :: update t k' a
  end.

(** [l[i] = a] *)
Definition setitem {A : Type} (l : list A) (i : Z) (a : A) : result (list A) :=
  k <- index (Z.of_nat (length l)) i ;;
  Ok (update l k a).

(** [a / b] on ints: true division. *)
Definition truediv (a b : Z) : result Q :=
  if b =? 0 then Raise ZeroDivisionError
  else Ok (inject_Z a / inject_Z b)%Q.

End Py.

(** ** lab4/classification.py *)

Module Classification.
Import Py Py.Notations.
Local Open Scope Z_scope.

(** [[[0] * num_classes for _ in range(num_classes)]]: the rows are distinct
    lists, so updating one leaves the others as they are. *)
Definition zeros (num_classes : Z) : list (list Z) :=
  let n := Z.to_nat num_classes in
  repeat (repeat 0 n) n.

(** One turn of the loop of [get_confusion_matrix]. *)
Definition count_pair (num_classes : Z) (matrix : list (list Z))
    (sample : Z * Z) : result (list (list Z)) :=
  let '(actual, predicted) := sample in
  if (actual >=? num_classes) || (predicted >=? num_classes) then
    Raise (ValueError "Invalid prediction classes!")
  else
    row <- getitem matrix actual ;;
    cell <- getitem row predicted ;;
    row' <- setitem row predicted (cell + 1) ;;
    setitem matrix actual row'.

Fixpoint count_pairs (num_classes : Z) (matrix : list (list Z))
    (pairs : list (Z * Z)) : result (list (list Z)) :=
  match pairs with
  | [] => Ok matrix
  | sample :: rest =>
      matrix' <- count_pair num_classes matrix sample ;;
      count_pairs num_classes matrix' rest
  end.

Definition get_confusion_matrix (y_true y_pred : list Z) (num_classes : Z)
    : result (list (list Z)) :=
  if negb (length y_true =? length y_pred)%nat then
    Raise (ValueError "Invalid input shapes!")
  else
    count_pairs num_classes (zeros num_classes) (combine y_true y_pred).

(** Returns (TN, FP, FN, TP). *)
Definition get_quality_factors (y_true y_pred : list Z)
    : result (Z * Z * Z * Z) :=
  matrix <- get_confusion_matrix y_true y_pred 2 ;;
  m00 <- (row <- getitem matrix 0 ;; getitem row 0) ;;
  m01 <- (row <- getitem matrix 0 ;; getitem row 1) ;;
  m10 <- (row <- getitem matrix 1 ;; getitem row 0) ;;
  m11 <- (row <- getitem matrix 1 ;; getitem row 1) ;;
  Ok (m00, m01, m10, m11).

Definition accuracy_score (y_true y_pred : list Z) : result Q :=
  q <- get_quality_factors y_true y_pred ;;
  let '(TN, FP, FN, TP) := q in
  truediv (TP + TN) (TP + FN + FP + TN).

Definition precision_score (y_true y_pred : list Z) : result Q :=
  q <- get_quality_factors y_true y_pred ;;
  let '(TN, FP, FN, TP) := q in
  truediv TP (TP + FP).

Definition recall_score (y_true y_pred : list Z) : result Q :=
  q <- get_quality_factors y_true y_pred ;;
  let '(TN, FP, FN, TP) := q in
  truediv TP (TP + FN).

Definition f1_score (y_true y_pred : list Z) : result Q :=
  q <- get_quality_factors y_true y_pred ;;
  let '(TN, FP, FN, TP) := q in
  truediv (2 * TP) (2 * TP + FP + FN).

(** *** What the specification says of the confusion matrix *)

(** A sample with true label [a] and predicted label [p]. *)
Definition hit (a p : Z) (sample : Z * Z) : bool :=
  (fst sample =? a) && (snd sample =? p).

(** The number of samples with true label [a] and predicted label [p]. *)
Definition samples (a p : Z) (pairs : list (Z * Z)) : Z :=
  Z.of_nat (length (filter (hit a p) pairs)).

(** A matrix with [n] rows of [n] cells. *)
Definition square (n : nat) (matrix : list (list Z)) : Prop :=
  length matrix = n /\ forall row, In row matrix -> length row = n.

(** The cell [matrix[a][p]], for indices within bounds. *)
Definition cell (matrix : list (list Z)) (a p : Z) : Z :=
  nth (Z.to_nat p) (nth (Z.to_nat a) matrix []) 0.

(** The sum of the cells of a matrix. *)
Definition total (matrix : list (list Z)) : Z :=
  fold_right Z.add 0 (map (fold_right Z.add 0) matrix).

(** A label that Python accepts as an index into a list of [num_classes]
    items. *)
Definition indexable (num_classes label : Z) : Prop :=
  - num_classes <= label < num_classes.

(** The class that an indexable label selects: a negative label counts from
    the end. *)
Definition wrap (num_classes label : Z) : Z := label mod num_classes.

(** What a matrix keeps while samples are counted: its shape, and cells that
    are not negative. *)
Definition counted (n : nat) (matrix : list (list Z)) : Prop :=
  square n matrix /\ Forall (Forall (fun c => 0 <= c)) matrix.

(** The table of counts over the classes [0 .. n-1]. *)
Definition table (n : nat) (pairs : list (Z * Z)) : list (list Z) :=
  map (fun a => map (fun p => samples (Z.of_nat a) (Z.of_nat p) pairs)
                    (seq 0 n))
      (seq 0 n).

(** The number of samples whose two labels agree. *)
Definition matches (pairs : list (Z * Z)) : Z :=
  Z.of_nat (length (filter (fun sample => fst sample =? snd sample) pairs)).

(** A label of the binary metrics. *)
Definition binary (label : Z) : Prop := label = 0 \/ label = 1.

End Classification.

(** ** lab3/lss.py: the polynomial formatter *)

Module Formatter.
Import Py Py.Notations.

(** *** [format(x, '.pf')] on a binary64

    Python renders the exact binary value, correctly rounded (ties to even) to
    [p] digits after the point; the sign is kept also when the digits are all
    zero, and the point is left out when [p = 0]. *)

Definition str_of_nat (n : nat) : string :=
  DecimalString.NilEmpty.string_of_uint (Nat.to_uint n).

Definition str_of_N (n : N) : string :=
  DecimalString.NilEmpty.string_of_uint (N.to_uint n).

Definition digit_char (d : N) : ascii := ascii_of_N (48 + d).

(** The [k] low decimal digits of [n], most significant first. *)
Fixpoint low_digits (k : nat) (n : N) : list ascii :=
  match k with
  | O => []
  | S k' => low_digits k' (n / 10) ++ [digit_char (n mod 10)]
  end.

(** [num / den] rounded to the nearest integer, ties to even. *)
Definition round_half_even (num den : N) : N :=
  let q := (num / den)%N in
  let r := (num mod den)%N in
  match (2 * r ?= den)%N with
  | Lt => q
  | Gt => (q + 1)%N
  | Eq => if N.even q then q else (q + 1)%N
  end.

(** [m * 2^e * 10^p] rounded to an integer. *)
Definition scaled (m : positive) (e : Z) (p : nat) : N :=
  let num := (N.pos m * 10 ^ N.of_nat p)%N in
  match e with
  | Z0 => num
  | Zpos k => (num * 2 ^ N.pos k)%N
  | Zneg k => round_half_even num (2 ^ N.pos k)
  end.

(** The text of [n / 10^p] with [p] digits after the point. *)
Definition fixed_point (negative : bool) (n : N) (p : nat) : string :=
  ((if negative then "-" else "")
   ++ str_of_N (n / 10 ^ N.of_nat p)
   ++ match p with
      | O => ""
      | S _ => String "." (string_of_list_ascii (low_digits p n))
      end)%string.

Definition format_fixed (p : nat) (x : float) : string :=
  match Prim2SF x with
  | S754_nan => "nan"
  | S754_infinity negative => if negative then "-inf" else "inf"
  | S754_zero negative => fixed_point negative 0 p
  | S754_finite negative m e => fixed_point negative (scaled m e p) p
  end.

(** [format(x, f'.{precission}f')]. The precision is written into the format
    specifier in decimal: a minus sign after the point is no precision, and
    a precision that does not fit a C [int] (or, from [2^63] on, a
    [Py_ssize_t]) is refused. *)
Definition format (x : float) (precission : Z) : result string :=
  if (precission <? 0)%Z then
    Raise (ValueError "Format specifier missing precision")
  else if (precission <? 2 ^ 31)%Z then
    Ok (format_fixed (Z.to_nat precission) x)
  else if (precission <? 2 ^ 63)%Z then
    Raise (ValueError "precision too big")
  else Raise (ValueError "Too many decimal digits in format string").

(** *** print_polynomial *)

(** The loop
    [while polynomial.endswith('0') and polynomial[-2] != '.':
         polynomial = polynomial[:-1]]
    on the characters of [polynomial] held last first: the head is
    [polynomial[-1]], the next one [polynomial[-2]], and the tail is
    [polynomial[:-1]]. [polynomial[-2]] on a one-character string is an
    [IndexError]. *)
Fixpoint strip_zeros (reversed : list ascii) : result (list ascii) :=
  match reversed with
  | [] => Ok []
  | last :: before =>
      if negb (Ascii.eqb last "0") then Ok reversed
      else
        match before with
        | [] => Raise IndexError
        | c :: _ =>
            if negb (Ascii.eqb c ".") then strip_zeros before
            else Ok reversed
        end
  end.

Definition strip (polynomial : string) : result string :=
  fmap (fun r => string_of_list_ascii (rev r))
       (strip_zeros (rev (list_ascii_of_string polynomial))).

(** The body of [for i in range(theta.size)], from index [i] on; [theta] holds
    the coefficients [theta[i][0]], [theta[i+1][0]], ... still to print. *)
Fixpoint print_terms (size : nat) (precission : Z) (i : nat)
    (theta : list float) (polynomial : string) : result string :=
  match theta with
  | [] => Ok polynomial
  | coeff :: rest =>
      text <- format coeff precission ;;
      polynomial <- strip (polynomial ++ text) ;;
      let polynomial := (polynomial ++ "*x^" ++ str_of_nat i)%string in
      let polynomial :=
        if negb (i =? size - 1)%nat then (polynomial ++ " + ")%string
        else polynomial in
      print_terms size precission (S i) rest polynomial
  end.

Definition print_polynomial (theta : list float) (precission : Z)
    : result string :=
  print_terms (length theta) precission 0 theta "".

(** *** The formatter as the specification words it

    Each coefficient is formatted to [p] fractional digits, its trailing zeros
    are stripped but the first digit after the point is kept; the terms
    [c*x^i] are joined with [" + "] and none is left out. *)

(** A character other than the decimal point. *)
Definition no_point (c : ascii) : Prop := Ascii.eqb c "." = false.

(** [digits] without its trailing zeros. *)
Fixpoint drop_trailing_zeros (digits : list ascii) : list ascii :=
  match digits with
  | [] => []
  | d :: rest =>
      match drop_trailing_zeros rest with
      | [] => if Ascii.eqb d "0" then [] else [d]
      | kept => d :: kept
      end
  end.

(** The part of [s] before its first point, and the part after it. *)
Fixpoint split_point (s : list ascii) : list ascii * option (list ascii) :=
  match s with
  | [] => ([], None)
  | c :: rest =>
      if Ascii.eqb c "." then ([], Some rest)
      else let '(whole, frac) := split_point rest in (c :: whole, frac)
  end.

Definition coefficient_spec (text : string) : string :=
  match split_point (list_ascii_of_string text) with
  | (whole, Some (d :: frac)) =>
      string_of_list_ascii (whole ++ "."%char :: d :: drop_trailing_zeros frac)
  | _ => text
  end.

Definition term_spec (p : nat) (i : nat) (coeff : float) : string :=
  (coefficient_spec (format_fixed p coeff) ++ "*x^" ++ str_of_nat i)%string.

Fixpoint terms_spec (p : nat) (i : nat) (theta : list float) : list string :=
  match theta with
  | [] => []
  | coeff :: rest => term_spec p i coeff :: terms_spec p (S i) rest
  end.

Definition print_polynomial_spec (theta : list float) (p : nat) : string :=
  String.concat " + " (terms_spec p 0 theta).

(** *** get_polynomial_form *)

(** [np.arange(1 + polynomial_degree).reshape(-1, 1)]: the exponents
    [0 .. polynomial_degree], one row each; no row for a negative degree. *)
Definition get_polynomial_form (polynomial_degree : Z) : list (list Z) :=
  map (fun k => [Z.of_nat k]) (seq 0 (Z.to_nat (1 + polynomial_degree))).

End Formatter.
(** ** lab3/lss.py: the least-squares solver and the evaluator

    Numbers are binary64 ([float]); every operation below rounds as IEEE 754
    does. A numpy array of shape [(N,)] is a [list float], a two-dimensional
    array the list of its rows. The result of the solver has shape
    [(d+1, 1)]: a row of it holds one number and is kept as that number.

    The source leaves the matrix products and the inverse to numpy, and
    numpy to its BLAS and LAPACK, which decide in what order the operations
    of a product or of a factorisation are done and which of them are fused.
    The order fixed here follows OpenBLAS on small matrices:
    - a product of two matrices accumulates each entry with fused
      multiply-adds, from the left;
    - a product of a matrix and a vector adds the rounded products, from the
      left;
    - [np.linalg.inv] solves [A X = I]: a factorisation with partial
      pivoting that works column by column, each entry less the accumulated
      product of what is left of it and above it, the multipliers scaled by
      the reciprocal of the pivot; then the two triangular solves. It fails
      exactly when a pivot is zero.
    A power with an exponent of 3 or more is the correctly rounded power.
    Another build of the libraries, or a larger matrix, can differ in the
    last digits of a result; the element-wise arithmetic of the evaluator
    is the same everywhere. *)

Module LeastSquares.
Import Py.

Local Open Scope float_scope.

(** *** Exact values, to compare results with *)

(** The rational that a finite binary64 stands for (0 for the others). *)
Definition value (x : float) : Q :=
  match Prim2SF x with
  | S754_finite negative m e =>
      ((if negative then -1 else 1) * inject_Z (Z.pos m) * Qpower 2 e)%Q
  | _ => 0%Q
  end.

(** [x] is a finite number, at most [tolerance] away from [q]. *)
Definition within (tolerance : Q) (x : float) (q : Q) : Prop :=
  is_finite x = true
  /\ (q - tolerance <= value x)%Q /\ (value x <= q + tolerance)%Q.



(** *** One- and two-dimensional arrays *)

(** [a * b + c] with one rounding, the fused multiply-add of the
    processor. *)
Definition fma (a b c : float) : float :=
  match Prim2SF a, Prim2SF b, Prim2SF c with
  | S754_finite sa ma ea, S754_finite sb mb eb, S754_finite sc mc ec =>
      let e := Z.min (ea + eb) ec in
      let p := ((if xorb sa sb then Z.neg (ma * mb) else Z.pos (ma * mb))
                * 2 ^ (ea + eb - e))%Z in
      let q := ((if sc then Z.neg mc else Z.pos mc) * 2 ^ (ec - e))%Z in
      SF2Prim (binary_normalize prec emax (p + q) e false)
  | S754_finite sa ma ea, S754_finite sb mb eb, S754_zero _ =>
      SF2Prim (binary_round prec emax (xorb sa sb) (ma * mb) (ea + eb))
  | S754_finite _ _ _, S754_finite _ _ _, S754_infinity _ => c
  | _, _, _ => a * b + c
  end.

(** The sum of the rounded products of a row and a column. *)
Definition dot (r c : list float) : float :=
  fold_left (fun acc ab => acc + fst ab * snd ab) (combine r c) 0.

(** The same sum, accumulated with fused multiply-adds. *)
Definition dot_fused (r c : list float) : float :=
  fold_left (fun acc ab => fma (fst ab) (snd ab) acc) (combine r c) 0.

Definition column (j : nat) (B : list (list float)) : list float :=
  map (fun row => nth j row 0) B.

(** [A.T], for [A] with [n] columns. *)
Definition transpose (n : nat) (A : list (list float)) : list (list float) :=
  map (fun k => column k A) (seq 0 n).

(** [A @ B], for [B] with [p] columns. *)
Definition matmul (A B : list (list float)) (p : nat) : list (list float) :=
  map (fun r => map (fun j => dot_fused r (column j B)) (seq 0 p)) A.

(** [A @ v] for a one-dimensional [v]. *)
Definition matvec (A : list (list float)) (v : list float) : list float :=
  map (fun r => dot r v) A.

(** [multiply.accumulate]: [acc], [acc * x], [(acc * x) * x], ... *)
Fixpoint accumulate (x acc : float) (n : nat) : list float :=
  match n with
  | O => []
  | S n' => acc :: accumulate x (acc * x) n'
  end.

(** One row of [np.vander(X, n, increasing=True)]: the first column is set
    to 1, the second to [x], the following ones are accumulated products. *)
Definition vander_row (n : nat) (x : float) : list float :=
  match n with
  | O => []
  | S n' => 1 :: accumulate x x n'
  end.

Definition vander (X : list float) (n : nat) : list (list float) :=
  map (vander_row n) X.

(** *** np.linalg.inv *)

(** The matrix is factorised in place, column by column; a column is the
    list of its entries. Of a column done, the entries down to the diagonal
    belong to the upper factor, those below it are the multipliers. *)

(** Entry [i] of every column: a row. *)
Definition row (i : nat) (columns : list (list float)) : list float :=
  map (fun c => nth i c 0) columns.

(** Rows [i] and [p] of a column change places. *)
Definition swap_entries (i p : nat) (b : list float) : list float :=
  update (update b i (nth p b 0)) p (nth i b 0).

(** The interchanges made so far, the one of step [i] being of rows [i] and
    [pivots[i]], applied in their order. *)
Definition interchange (pivots : list nat) (b : list float) : list float :=
  fold_left (fun b ip => swap_entries (fst ip) (snd ip) b)
            (combine (seq 0 (length pivots)) pivots) b.

(** From the top down, entry [i] of a column less the accumulated product
    of row [i] of the columns done and the entries above it, as far as the
    shorter of the two goes. *)
Fixpoint reduce_column (done : list (list float)) (i : nat)
    (above below : list float) : list float :=
  match below with
  | [] => above
  | v :: rest =>
      reduce_column done (S i)
        (above ++ [v - dot_fused (row i done) above]) rest
  end.

(** The first position, from [i] on, of an entry that is largest in
    absolute value; [best] is the position found so far. *)
Fixpoint pivot_index (entries : list float) (i best : nat) (largest : float)
    : nat :=
  match entries with
  | [] => best
  | v :: rest =>
      if largest <? abs v then pivot_index rest (S i) i (abs v)
      else pivot_index rest (S i) best largest
  end.

Definition pivot (j : nat) (b : list float) : nat :=
  match skipn j b with
  | [] => j
  | v :: rest => pivot_index rest (S j) j (abs v)
  end.

(** The entries below the diagonal entry [j], times [r]. *)
Definition scale_below (j : nat) (r : float) (b : list float) : list float :=
  map (fun iv => if (fst iv <=? j)%nat then snd iv else snd iv * r)
      (combine (seq 0 (length b)) b).

(** One column more. *)
Definition factor_column (done : list (list float)) (pivots : list nat)
    (b : list float) : result (list (list float) * list nat) :=
  let j := length done in
  let reduced := reduce_column done 0 [] (interchange pivots b) in
  let p := pivot j reduced in
  if nth p reduced 0 =? 0 then Raise (LinAlgError "Singular matrix")
  else
    let swapped := swap_entries j p reduced in
    Ok (map (swap_entries j p) done
          ++ [scale_below j (1 / nth j swapped 0) swapped],
        pivots ++ [p]).

Fixpoint factorise (columns done : list (list float)) (pivots : list nat)
    : result (list (list float) * list nat) :=
  match columns with
  | [] => Ok (done, pivots)
  | b :: rest =>
      bind (factor_column done pivots b)
           (fun s => factorise rest (fst s) (snd s))
  end.

(** The solve with the upper factor, from the last row (of index [i]) up;
    [pending] holds the right-hand side last entry first, [solved] the
    entries of the solution found so far. *)
Fixpoint back_substitute (factors : list (list float)) (pending : list float)
    (i : nat) (solved : list float) : list float :=
  match pending with
  | [] => solved
  | v :: rest =>
      let u := row i factors in
      back_substitute factors rest (i - 1)
        ((v - dot_fused (rev (skipn (S i) u)) (rev solved))
           * (1 / nth i u 0)
         :: solved)
  end.

(** One column of the solution of [A X = B] from the factors of [A]. *)
Definition solve (n : nat) (factors : list (list float)) (pivots : list nat)
    (b : list float) : list float :=
  back_substitute factors
    (rev (reduce_column factors 0 [] (interchange pivots b))) (n - 1) [].

Definition identity (n : nat) : list (list float) :=
  map (fun i => map (fun j => if (i =? j)%nat then 1 else 0) (seq 0 n))
      (seq 0 n).

(** [np.linalg.inv(A)] for an [n] by [n] matrix. *)
Definition inv (n : nat) (A : list (list float)) : result (list (list float)) :=
  bind (factorise (transpose n A) [] []) (fun s =>
  let solution := map (solve n (fst s) (snd s)) (identity n) in
  Ok (map (fun i => row i solution) (seq 0 n))).

(** *** least_squares_solution *)

(** [X_poly.T @ X_poly] for [X_poly] with [n] columns. *)
Definition normal_matrix (n : nat) (X_poly : list (list float))
    : list (list float) :=
  matmul (transpose n X_poly) X_poly n.

(** The message of [@] for a vector of [size] entries where [expected] are
    needed. *)
Definition mismatch (size expected : nat) : string :=
  ("matmul: Input operand 1 has a mismatch in its core dimension 0, "
   ++ "with gufunc signature (n?,k),(k,m?)->(n?,m?) (size "
   ++ Formatter.str_of_nat size ++ " is different from "
   ++ Formatter.str_of_nat expected ++ ")")%string.

(** [np.linalg.inv(X_poly.T @ X_poly) @ X_poly.T @ Y], evaluated from the
    left; the last [@] needs [Y] as long as [X_poly] has rows, and fails with
    a [ValueError] otherwise. The degree is a natural number, the arrays
    hold binary64 numbers. The result is [theta.reshape(-1, 1)]. *)
Definition least_squares_solution (X Y : list float) (polynomial_degree : nat)
    : result (list float) :=
  let n := S polynomial_degree in
  let X_poly := vander X n in
  bind (inv n (normal_matrix n X_poly)) (fun inverse =>
  let pseudo := matmul inverse (transpose n X_poly) (length X) in
  if (length Y =? length X)%nat then Ok (matvec pseudo Y)
  else Raise (ValueError (mismatch (length Y) (length X)))).

(** *** generalised_linear_model *)

(** The correctly rounded [k]-th power. *)
Definition pow (x : float) (k : nat) : float :=
  match Prim2SF x with
  | S754_finite negative m e =>
      SF2Prim (binary_round prec emax (negative && Nat.odd k)
                 (m ^ Pos.of_nat k) (e * Z.of_nat k))
  | S754_zero negative => SF2Prim (S754_zero (negative && Nat.odd k))
  | S754_infinity negative =>
      SF2Prim (S754_infinity (negative && Nat.odd k))
  | S754_nan => nan
  end.

(** [x ** degree] for a Python int [degree]: the exponents 0, 1 and 2 give
    1, [x] and the rounded [x * x]. *)
Definition power (x : float) (degree : nat) : float :=
  match degree with
  | O => 1
  | S O => x
  | S (S O) => x * x
  | _ => pow x degree
  end.

(** What [sum] accumulates: it starts from the int [0] and becomes an array
    with the first term added. *)
Inductive value_of_sum : Type :=
| Number (c : float)
| Array (a : list float).

(** [acc + term], as [sum] adds the next term. *)
Definition add (acc : value_of_sum) (term : list float) : value_of_sum :=
  match acc with
  | Number c => Array (map (fun t => c + t) term)
  | Array a => Array (map (fun at_ => fst at_ + snd at_) (combine a term))
  end.

Definition py_sum (terms : list (list float)) : value_of_sum :=
  fold_left add terms (Number 0).

Definition enumerate_from (k : nat) (T : list float) : list (nat * float) :=
  combine (seq k (length T)) T.

Definition enumerate (T : list float) : list (nat * float) :=
  enumerate_from 0 T.

(** [coeff * X ** degree], [coeff] of shape [(1,)] broadcast over the
    array. *)
Definition term (X : list float) (dc : nat * float) : list float :=
  map (fun x => snd dc * power x (fst dc)) X.

Definition generalised_linear_model (X T : list float) : value_of_sum :=
  py_sum (map (term X) (enumerate T)).





End LeastSquares.
(** ** Facts about the classification metrics *)

Module ClassificationFacts.
Import Py Py.Notations Classification.
Local Open Scope Z_scope.

(** *** Python list access at an index within bounds *)

Lemma index_in_bounds (len i : Z) :
  0 <= i < len -> index len i = Ok (Z.to_nat i).
Proof.
  intros H. unfold index.
  destruct (Z.leb_spec 0 i); [|lia].
  destruct (Z.ltb_spec i len); [|lia].
  reflexivity.
Qed.

Lemma getitem_in_bounds {A : Type} (l : list A) (i : Z) (d : A) :
  0 <= i < Z.of_nat (length l) ->
  getitem l i = Ok (nth (Z.to_nat i) l d).
Proof.
  intros H. unfold getitem. rewrite index_in_bounds by exact H. simpl.
  destruct (nth_error l (Z.to_nat i)) eqn:E.
  - rewrite (nth_error_nth _ _ d E). reflexivity.
  - apply nth_error_None in E. lia.
Qed.

Lemma setitem_in_bounds {A : Type} (l : list A) (i : Z) (a : A) :
  0 <= i < Z.of_nat (length l) ->
  setitem l i a = Ok (update l (Z.to_nat i) a).
Proof.
  intros H. unfold setitem. rewrite index_in_bounds by exact H. reflexivity.
Qed.

Lemma length_update {A : Type} (l : list A) (k : nat) (a : A) :
  length (update l k a) = length l.
Proof.
  revert k. induction l as [|h t IH]; intros [|k]; simpl; auto.
Qed.

Lemma nth_update {A : Type} (l : list A) (k j : nat) (a d : A) :
  (k < length l)%nat ->
  nth j (update l k a) d = if (j =? k)%nat then a else nth j l d.
Proof.
  revert k j. induction l as [|h t IH]; intros k j Hk; simpl in Hk; [lia|].
  destruct k as [|k]; destruct j as [|j]; simpl; try reflexivity.
  apply IH. lia.
Qed.

Lemma In_update {A : Type} (l : list A) (k : nat) (a x : A) :
  In x (update l k a) -> x = a \/ In x l.
Proof.
  revert k. induction l as [|h t IH]; intros [|k]; simpl; try tauto.
  - intros [H|H]; auto.
  - intros [H|H]; auto. destruct (IH _ H); auto.
Qed.

(** *** The confusion matrix *)

Lemma square_zeros (num_classes : Z) :
  square (Z.to_nat num_classes) (zeros num_classes).
Proof.
  unfold zeros, square. split.
  - apply repeat_length.
  - intros row H. apply repeat_spec in H. subst row. apply repeat_length.
Qed.

Lemma cell_zeros (num_classes a p : Z) : cell (zeros num_classes) a p = 0.
Proof.
  unfold cell, zeros.
  set (n := Z.to_nat num_classes).
  assert (Hrow : forall k, nth k (repeat (repeat 0 n) n) [] = repeat 0 n
                           \/ nth k (repeat (repeat 0 n) n) [] = []).
  { intros k. destruct (Nat.lt_ge_cases k n) as [H|H].
    - left. apply nth_repeat_lt. exact H.
    - right. apply nth_overflow. rewrite repeat_length. exact H. }
  destruct (Hrow (Z.to_nat a)) as [-> | ->].
  - destruct (Nat.lt_ge_cases (Z.to_nat p) n) as [H|H].
    + apply nth_repeat_lt. exact H.
    + apply nth_overflow. rewrite repeat_length. exact H.
  - destruct (Z.to_nat p); reflexivity.
Qed.

(** One sample with both labels in range adds one to its cell and leaves the
    others as they are. *)
Lemma count_pair_in_range (num_classes : Z) (matrix : list (list Z))
    (actual predicted : Z) :
  square (Z.to_nat num_classes) matrix ->
  0 <= actual < num_classes ->
  0 <= predicted < num_classes ->
  exists matrix',
    count_pair num_classes matrix (actual, predicted) = Ok matrix'
    /\ square (Z.to_nat num_classes) matrix'
    /\ forall a p, 0 <= a -> 0 <= p ->
         cell matrix' a p
         = cell matrix a p + (if hit a p (actual, predicted) then 1 else 0).
Proof.
  intros [Hlen Hrows] Ha Hp.
  set (row := nth (Z.to_nat actual) matrix []).
  assert (Hin : In row matrix) by (apply nth_In; lia).
  assert (Hrow : length row = Z.to_nat num_classes) by auto.
  exists (update matrix (Z.to_nat actual)
            (update row (Z.to_nat predicted)
               (nth (Z.to_nat predicted) row 0 + 1))).
  split; [|split].
  - unfold count_pair.
    destruct (Z.geb_spec actual num_classes); [lia|].
    destruct (Z.geb_spec predicted num_classes); [lia|]. simpl.
    rewrite (getitem_in_bounds matrix actual []) by lia. simpl. fold row.
    rewrite (getitem_in_bounds row predicted 0) by lia. simpl.
    rewrite setitem_in_bounds by lia. simpl.
    rewrite setitem_in_bounds by lia. reflexivity.
  - split.
    + rewrite length_update. exact Hlen.
    + intros r Hr. apply In_update in Hr. destruct Hr as [-> | Hr]; auto.
      rewrite length_update. exact Hrow.
  - intros a p Ha0 Hp0. unfold cell, hit. simpl.
    rewrite (nth_update matrix) by lia.
    destruct (Nat.eqb_spec (Z.to_nat a) (Z.to_nat actual)) as [Ea|Ea].
    + assert (a = actual) by lia. subst a. rewrite Z.eqb_refl. simpl.
      rewrite (nth_update row) by lia. fold row.
      destruct (Nat.eqb_spec (Z.to_nat p) (Z.to_nat predicted)) as [Ep|Ep].
      * assert (p = predicted) by lia. subst p. rewrite Z.eqb_refl. reflexivity.
      * destruct (Z.eqb_spec predicted p); [subst; lia|]. simpl. lia.
    + destruct (Z.eqb_spec actual a); [subst; lia|]. simpl. lia.
Qed.

Lemma count_pairs_in_range (num_classes : Z) (pairs : list (Z * Z)) :
  forall matrix,
  square (Z.to_nat num_classes) matrix ->
  Forall (fun s => 0 <= fst s < num_classes /\ 0 <= snd s < num_classes)
         pairs ->
  exists matrix',
    count_pairs num_classes matrix pairs = Ok matrix'
    /\ square (Z.to_nat num_classes) matrix'
    /\ forall a p, 0 <= a -> 0 <= p ->
         cell matrix' a p = cell matrix a p + samples a p pairs.
Proof.
  induction pairs as [|[actual predicted] rest IH]; intros matrix Hsq Hall.
  - exists matrix. repeat split; try apply Hsq.
    intros. unfold samples. simpl. lia.
  - inversion Hall as [|? ? [Ha Hp] Hrest]; subst. simpl in Ha, Hp.
    destruct (count_pair_in_range num_classes matrix actual predicted Hsq Ha Hp)
      as (m1 & E1 & Hsq1 & Hcell1).
    destruct (IH m1 Hsq1 Hrest) as (m2 & E2 & Hsq2 & Hcell2).
    exists m2. split; [|split]; auto.
    + cbn [count_pairs]. rewrite E1. exact E2.
    + intros a p Ha0 Hp0. rewrite Hcell2, Hcell1 by assumption.
      unfold samples, hit. simpl.
      destruct ((actual =? a) && (predicted =? p)); simpl length; lia.
Qed.

(** Inputs of different lengths are refused before anything is counted. *)
Lemma get_confusion_matrix_shape_mismatch (y_true y_pred : list Z)
    (num_classes : Z) :
  length y_true <> length y_pred ->
  get_confusion_matrix y_true y_pred num_classes
  = Raise (ValueError "Invalid input shapes!").
Proof.
  intros H. unfold get_confusion_matrix.
  destruct (Nat.eqb_spec (length y_true) (length y_pred)); [contradiction|].
  reflexivity.
Qed.

(** With every label in [[0, num_classes)] the result is the table of counts. *)
Lemma get_confusion_matrix_counts (y_true y_pred : list Z) (num_classes : Z) :
  length y_true = length y_pred ->
  Forall (fun l => 0 <= l < num_classes) y_true ->
  Forall (fun l => 0 <= l < num_classes) y_pred ->
  exists matrix,
    get_confusion_matrix y_true y_pred num_classes = Ok matrix
    /\ square (Z.to_nat num_classes) matrix
    /\ forall a p, 0 <= a < num_classes -> 0 <= p < num_classes ->
         (row <- getitem matrix a ;; getitem row p)
         = Ok (samples a p (combine y_true y_pred)).
Proof.
  intros Hlen Ht Hp. unfold get_confusion_matrix.
  rewrite Hlen, Nat.eqb_refl. simpl.
  assert (Hall : Forall (fun s => 0 <= fst s < num_classes
                                  /\ 0 <= snd s < num_classes)
                        (combine y_true y_pred)).
  { apply Forall_forall. intros [a p] Hin. simpl.
    rewrite Forall_forall in Ht, Hp. split.
    - apply Ht. eapply in_combine_l; eauto.
    - apply Hp. eapply in_combine_r; eauto. }
  destruct (count_pairs_in_range num_classes _ _ (square_zeros num_classes) Hall)
    as (m & E & Hsq & Hcell).
  exists m. split; [exact E|]. split; [exact Hsq|].
  intros a p Ha Hp'. destruct Hsq as [Hl Hrows].
  rewrite (getitem_in_bounds m a []) by lia. simpl.
  assert (Hin : In (nth (Z.to_nat a) m []) m) by (apply nth_In; lia).
  rewrite (getitem_in_bounds _ p 0) by (rewrite (Hrows _ Hin); lia).
  f_equal. fold (cell m a p). rewrite Hcell by lia. rewrite cell_zeros. lia.
Qed.

(** A label at or above [num_classes] in the first sample is refused. *)
Lemma get_confusion_matrix_label_too_large (a p : Z) (y_true y_pred : list Z)
    (num_classes : Z) :
  length y_true = length y_pred ->
  num_classes <= a \/ num_classes <= p ->
  get_confusion_matrix (a :: y_true) (p :: y_pred) num_classes
  = Raise (ValueError "Invalid prediction classes!").
Proof.
  intros Hlen H. unfold get_confusion_matrix. simpl length.
  rewrite Hlen, Nat.eqb_refl. simpl.
  destruct (Z.geb_spec a num_classes); simpl; [reflexivity|].
  destruct (Z.geb_spec p num_classes); simpl; [reflexivity|]. lia.
Qed.

(** C5. At a negative label [get_confusion_matrix] does not fail with the
    "invalid class" error: only [label >= num_classes] is tested, so [-1]
    passes the test and, as a Python index, counts in the last row or column;
    a label below [-num_classes] ends in an [IndexError]. *)
Theorem get_confusion_matrix_negative_label :
  get_confusion_matrix [-1] [0] 2 = Ok [[0; 0]; [1; 0]]
  /\ get_confusion_matrix [0] [-1] 2 = Ok [[0; 1]; [0; 0]]
  /\ get_confusion_matrix [-3] [0] 2 = Raise IndexError.
Proof. repeat split; reflexivity. Qed.

(** *** The scores *)

(** A score fails only as its table of quality factors does, or on its own
    division. *)
Lemma truediv_zero (a b : Z) :
  (b = 0 -> truediv a b = Raise ZeroDivisionError)
  /\ (b <> 0 -> truediv a b = Ok (inject_Z a / inject_Z b)%Q).
Proof.
  unfold truediv. destruct (Z.eqb_spec b 0); split; intros; congruence.
Qed.

(** C7. Precision, recall and F1 treat a zero denominator alike: once the
    quality factors (TN, FP, FN, TP) are there, each of them raises
    [ZeroDivisionError] exactly when its own denominator is zero, and returns
    the ratio otherwise. *)
Theorem scores_zero_denominator (y_true y_pred : list Z) (TN FP FN TP : Z) :
  get_quality_factors y_true y_pred = Ok (TN, FP, FN, TP) ->
  ((TP + FP = 0 -> precision_score y_true y_pred = Raise ZeroDivisionError)
   /\ (TP + FP <> 0 ->
       precision_score y_true y_pred
       = Ok (inject_Z TP / inject_Z (TP + FP))%Q))
  /\ ((TP + FN = 0 -> recall_score y_true y_pred = Raise ZeroDivisionError)
      /\ (TP + FN <> 0 ->
          recall_score y_true y_pred
          = Ok (inject_Z TP / inject_Z (TP + FN))%Q))
  /\ ((2 * TP + FP + FN = 0 ->
       f1_score y_true y_pred = Raise ZeroDivisionError)
      /\ (2 * TP + FP + FN <> 0 ->
          f1_score y_true y_pred
          = Ok (inject_Z (2 * TP) / inject_Z (2 * TP + FP + FN))%Q)).
Proof.
  intros E. unfold precision_score, recall_score, f1_score.
  rewrite E. cbn [bind].
  repeat split; intros; apply truediv_zero; assumption.
Qed.

Lemma scores_zero_denominator_no_positive_prediction :
  precision_score [0; 1; 1; 0] [0; 0; 0; 0] = Raise ZeroDivisionError
  /\ recall_score [0; 1; 1; 0] [0; 0; 0; 0] = Ok (inject_Z 0 / inject_Z 2)%Q
  /\ f1_score [0; 1; 1; 0] [0; 0; 0; 0]
     = Ok (inject_Z (2 * 0) / inject_Z 2)%Q.
Proof.
  pose proof (scores_zero_denominator [0; 1; 1; 0] [0; 0; 0; 0] 2 0 2 0
                eq_refl) as (Hp & Hr & Hf).
  split; [|split].
  - apply Hp. reflexivity.
  - apply Hr. discriminate.
  - apply Hf. discriminate.
Defined.

(** C8. For [y_true = [0,1,1,0]] and [y_pred = [0,1,0,0]] with two classes the
    confusion matrix is [[2,0],[1,1]], read as TN = [0][0], FP = [0][1],
    FN = [1][0], TP = [1][1]; accuracy is 3/4, precision 1, recall 1/2 and
    F1 is 2/3 = 2*1*0.5/(1+0.5), which is 0.667 to three digits. *)
Theorem metrics_example :
  let y_true := [0; 1; 1; 0] in
  let y_pred := [0; 1; 0; 0] in
  get_confusion_matrix y_true y_pred 2 = Ok [[2; 0]; [1; 1]]
  /\ get_quality_factors y_true y_pred = Ok (2, 0, 1, 1)
  /\ (exists q, accuracy_score y_true y_pred = Ok q /\ (q == 3 # 4)%Q)
  /\ (exists q, precision_score y_true y_pred = Ok q /\ (q == 1)%Q)
  /\ (exists q, recall_score y_true y_pred = Ok q /\ (q == 1 # 2)%Q)
  /\ (exists q, f1_score y_true y_pred = Ok q
                /\ (q == 2 * 1 * (1 # 2) / (1 + (1 # 2)))%Q
                /\ (666 # 1000 < q)%Q /\ (q < 668 # 1000)%Q).
Proof.
  cbv zeta. split; [reflexivity|]. split; [reflexivity|].
  split; [|split; [|split]]; eexists; (split; [reflexivity|]);
    repeat split; reflexivity.
Qed.

(** *** What every returned matrix satisfies *)

Lemma index_indexable (len i : Z) :
  - len <= i < len -> index len i = Ok (Z.to_nat (i mod len)).
Proof.
  intros H. unfold index.
  destruct (Z.leb_spec 0 i); destruct (Z.ltb_spec i len); simpl; try lia.
  - rewrite Z.mod_small by lia. reflexivity.
  - destruct (Z.leb_spec (- len) i); destruct (Z.ltb_spec i 0); simpl; try lia.
    rewrite <- (Z.mod_unique_pos i len (-1) (len + i)); [reflexivity|lia|lia].
Qed.

Lemma index_not_indexable (len i : Z) :
  ~ (- len <= i < len) -> index len i = Raise IndexError.
Proof.
  intros H. unfold index.
  destruct (Z.leb_spec 0 i); destruct (Z.ltb_spec i len); simpl; try lia;
    destruct (Z.leb_spec (- len) i); destruct (Z.ltb_spec i 0); simpl;
    try lia; reflexivity.
Qed.

Lemma index_ok (len i : Z) (k : nat) :
  index len i = Ok k ->
  - len <= i < len /\ k = Z.to_nat (i mod len) /\ (Z.of_nat k < len).
Proof.
  intros E.
  assert (H : - len <= i < len).
  { destruct (Z_le_dec (- len) i); destruct (Z_lt_dec i len); try lia;
      rewrite index_not_indexable in E by lia; discriminate. }
  split; [exact H|]. rewrite index_indexable in E by exact H.
  inversion E. split; [reflexivity|].
  rewrite Z2Nat.id; apply Z.mod_pos_bound; lia.
Qed.

Lemma getitem_ok {A : Type} (l : list A) (i : Z) (a d : A) :
  getitem l i = Ok a ->
  exists k, index (Z.of_nat (length l)) i = Ok k
            /\ (k < length l)%nat /\ a = nth k l d.
Proof.
  unfold getitem. destruct (index (Z.of_nat (length l)) i) as [k|] eqn:E;
    simpl; [|discriminate].
  destruct (nth_error l k) eqn:En; [|discriminate].
  intros H. inversion H. subst. exists k. split; [reflexivity|]. split.
  - apply nth_error_Some. congruence.
  - symmetry. apply nth_error_nth. exact En.
Qed.

(** A successful turn of the loop changes one cell of one row. *)
Lemma count_pair_ok (num_classes : Z) (matrix matrix' : list (list Z))
    (sample : Z * Z) :
  count_pair num_classes matrix sample = Ok matrix' ->
  exists ka kp,
    let row := nth ka matrix [] in
    (ka < length matrix)%nat /\ (kp < length row)%nat
    /\ matrix' = update matrix ka (update row kp (nth kp row 0 + 1)).
Proof.
  destruct sample as [actual predicted]. unfold count_pair.
  destruct ((actual >=? num_classes) || (predicted >=? num_classes));
    [discriminate|].
  destruct (getitem matrix actual) as [row|] eqn:Erow; [|discriminate].
  cbn [bind].
  destruct (getitem row predicted) as [v|] eqn:Ev; [|discriminate].
  cbn [bind].
  destruct (getitem_ok _ _ _ [] Erow) as (ka & Eka & Hka & Hrow).
  destruct (getitem_ok _ _ _ 0 Ev) as (kp & Ekp & Hkp & Hv).
  unfold setitem. rewrite Ekp. cbn [bind]. rewrite Eka. cbn [bind].
  intros E. inversion E. subst. exists ka, kp. cbv zeta. auto.
Qed.

Lemma sum_update (l : list Z) (k : nat) (v : Z) :
  (k < length l)%nat ->
  fold_right Z.add 0 (update l k v) = fold_right Z.add 0 l - nth k l 0 + v.
Proof.
  revert k. induction l as [|h t IH]; intros k Hk; simpl in Hk; [lia|].
  destruct k as [|k]; simpl.
  - lia.
  - rewrite IH by lia. lia.
Qed.

Lemma total_update (matrix : list (list Z)) (k : nat) (row : list Z) :
  (k < length matrix)%nat ->
  total (update matrix k row)
  = total matrix - fold_right Z.add 0 (nth k matrix []) + fold_right Z.add 0 row.
Proof.
  unfold total. revert k. induction matrix as [|h t IH]; intros k Hk;
    simpl in Hk; [lia|].
  destruct k as [|k]; simpl.
  - lia.
  - rewrite IH by lia. lia.
Qed.

Lemma Forall_update {A : Type} (P : A -> Prop) (l : list A) (k : nat) (a : A) :
  Forall P l -> P a -> Forall P (update l k a).
Proof.
  intros Hl Ha. apply Forall_forall. intros x Hx.
  apply In_update in Hx. destruct Hx as [-> | Hx]; [exact Ha|].
  rewrite Forall_forall in Hl. auto.
Qed.

Lemma count_pair_keeps (n : nat) (num_classes : Z)
    (matrix matrix' : list (list Z)) (sample : Z * Z) :
  counted n matrix ->
  count_pair num_classes matrix sample = Ok matrix' ->
  counted n matrix' /\ total matrix' = total matrix + 1.
Proof.
  intros [[Hlen Hrows] Hpos] E.
  destruct (count_pair_ok _ _ _ _ E) as (ka & kp & Hka & Hkp & ->).
  cbv zeta in Hkp.
  set (row := nth ka matrix []) in *.
  assert (Hin : In row matrix) by (apply nth_In; exact Hka).
  assert (Hrowpos : Forall (fun c => 0 <= c) row).
  { rewrite Forall_forall in Hpos. auto. }
  split; [split; [split|]|].
  - rewrite length_update. exact Hlen.
  - intros r Hr. apply In_update in Hr. destruct Hr as [-> | Hr]; auto.
    rewrite length_update. auto.
  - apply Forall_update; [exact Hpos|].
    apply Forall_update; [exact Hrowpos|].
    rewrite Forall_forall in Hrowpos.
    assert (0 <= nth kp row 0) by (apply Hrowpos, nth_In; exact Hkp). lia.
  - rewrite total_update by exact Hka. fold row.
    rewrite sum_update by exact Hkp. lia.
Qed.

Lemma count_pairs_keeps (n : nat) (num_classes : Z) (pairs : list (Z * Z)) :
  forall matrix matrix',
  counted n matrix ->
  count_pairs num_classes matrix pairs = Ok matrix' ->
  counted n matrix'
  /\ total matrix' = total matrix + Z.of_nat (length pairs).
Proof.
  induction pairs as [|sample rest IH]; intros matrix matrix' Hc E.
  - simpl in E. inversion E. subst. split; [exact Hc|]. simpl. lia.
  - cbn [count_pairs] in E.
    destruct (count_pair num_classes matrix sample) as [m1|] eqn:E1;
      [|discriminate].
    cbn [bind] in E.
    destruct (count_pair_keeps n _ _ _ _ Hc E1) as [Hc1 Ht1].
    destruct (IH _ _ Hc1 E) as [Hc2 Ht2].
    split; [exact Hc2|]. rewrite Ht2, Ht1. simpl length. lia.
Qed.

Lemma counted_zeros (num_classes : Z) :
  counted (Z.to_nat num_classes) (zeros num_classes)
  /\ total (zeros num_classes) = 0.
Proof.
  split; [split; [apply square_zeros|]|].
  - unfold zeros. apply Forall_forall. intros row Hrow.
    apply repeat_spec in Hrow. subst row.
    apply Forall_forall. intros c Hc. apply repeat_spec in Hc. lia.
  - unfold zeros, total. set (n := Z.to_nat num_classes).
    assert (Hrow : fold_right Z.add 0 (repeat 0 n) = 0).
    { induction n as [|k IHk]; simpl; lia. }
    generalize n at 2. intros k.
    induction k as [|k IHk]; simpl; [reflexivity|]. rewrite Hrow, IHk.
    reflexivity.
Qed.

Lemma get_confusion_matrix_ok_lengths (y_true y_pred : list Z)
    (num_classes : Z) (matrix : list (list Z)) :
  get_confusion_matrix y_true y_pred num_classes = Ok matrix ->
  length y_true = length y_pred
  /\ count_pairs num_classes (zeros num_classes) (combine y_true y_pred)
     = Ok matrix.
Proof.
  unfold get_confusion_matrix.
  destruct (Nat.eqb_spec (length y_true) (length y_pred)); simpl;
    [auto|discriminate].
Qed.

(** Whenever a matrix is returned, whatever the labels, it has
    [num_classes] rows of [num_classes] cells, no cell is negative, and the
    cells add up to the number of samples. *)
Theorem get_confusion_matrix_total (y_true y_pred : list Z)
    (num_classes : Z) (matrix : list (list Z)) :
  get_confusion_matrix y_true y_pred num_classes = Ok matrix ->
  square (Z.to_nat num_classes) matrix
  /\ Forall (Forall (fun c => 0 <= c)) matrix
  /\ total matrix = Z.of_nat (length y_true).
Proof.
  intros E. apply get_confusion_matrix_ok_lengths in E. destruct E as [Hlen E].
  destruct (counted_zeros num_classes) as [Hc Ht].
  destruct (count_pairs_keeps _ _ _ _ _ Hc E) as [[Hsq Hpos] Htot].
  split; [exact Hsq|]. split; [exact Hpos|].
  rewrite Htot, Ht, length_combine, Hlen, Nat.min_id. reflexivity.
Qed.

Lemma get_confusion_matrix_total_example :
  square 2 [[0; 1]; [1; 1]]
  /\ Forall (Forall (fun c => 0 <= c)) [[0; 1]; [1; 1]]
  /\ total [[0; 1]; [1; 1]] = 3.
Proof.
  apply (get_confusion_matrix_total [0; -1; 1] [1; 0; -1] 2).
  reflexivity.
Defined.

(** *** The matrix as a table of counts *)

Lemma nth_map_seq {A : Type} (f : nat -> A) (n k : nat) (d : A) :
  (k < n)%nat -> nth k (map f (seq 0 n)) d = f k.
Proof.
  intros Hk.
  rewrite (nth_indep (map f (seq 0 n)) d (f 0%nat))
    by (rewrite length_map, length_seq; exact Hk).
  rewrite (map_nth f (seq 0 n) 0%nat k), seq_nth by exact Hk. reflexivity.
Qed.

Lemma square_cells_table (n : nat) (matrix : list (list Z))
    (pairs : list (Z * Z)) :
  square n matrix ->
  (forall a p, 0 <= a -> 0 <= p -> cell matrix a p = samples a p pairs) ->
  matrix = table n pairs.
Proof.
  intros [Hlen Hrows] Hcell. unfold table.
  apply (nth_ext _ _ [] []).
  - rewrite length_map, length_seq. exact Hlen.
  - intros a Ha. rewrite Hlen in Ha. rewrite nth_map_seq by exact Ha.
    assert (Hrow : length (nth a matrix []) = n).
    { apply Hrows, nth_In. lia. }
    apply (nth_ext _ _ 0 0).
    + rewrite length_map, length_seq. exact Hrow.
    + intros p Hp. rewrite Hrow in Hp. rewrite nth_map_seq by exact Hp.
      rewrite <- Hcell by lia. unfold cell. rewrite !Nat2Z.id. reflexivity.
Qed.

Lemma Forall_combine (P : Z -> Prop) (y_true y_pred : list Z) :
  Forall P y_true -> Forall P y_pred ->
  Forall (fun s => P (fst s) /\ P (snd s)) (combine y_true y_pred).
Proof.
  intros Ht Hp. apply Forall_forall. intros [a p] Hin. simpl.
  rewrite Forall_forall in Ht, Hp. split.
  - apply Ht. eapply in_combine_l; eauto.
  - apply Hp. eapply in_combine_r; eauto.
Qed.

(** With every label in [[0, num_classes)] the call returns exactly the table
    of counts: row [a], column [p] holds the number of samples with true
    label [a] and predicted label [p]. *)
Theorem get_confusion_matrix_table (y_true y_pred : list Z)
    (num_classes : Z) :
  length y_true = length y_pred ->
  Forall (fun l => 0 <= l < num_classes) y_true ->
  Forall (fun l => 0 <= l < num_classes) y_pred ->
  get_confusion_matrix y_true y_pred num_classes
  = Ok (table (Z.to_nat num_classes) (combine y_true y_pred)).
Proof.
  intros Hlen Ht Hp. unfold get_confusion_matrix.
  rewrite Hlen, Nat.eqb_refl. simpl.
  destruct (count_pairs_in_range num_classes _ _ (square_zeros num_classes)
              (Forall_combine _ _ _ Ht Hp)) as (m & E & Hsq & Hcell).
  rewrite E. f_equal. apply square_cells_table; [exact Hsq|].
  intros a p Ha Hp'. rewrite Hcell by assumption. rewrite cell_zeros. lia.
Qed.

Lemma get_confusion_matrix_table_three_classes :
  get_confusion_matrix [0; 2; 2; 1; 2] [0; 2; 1; 1; 2] 3
  = Ok (table 3 (combine [0; 2; 2; 1; 2] [0; 2; 1; 1; 2])).
Proof.
  apply (get_confusion_matrix_table [0; 2; 2; 1; 2] [0; 2; 1; 1; 2] 3).
  - reflexivity.
  - repeat constructor; lia.
  - repeat constructor; lia.
Defined.

(** *** Labels that Python accepts as indices *)

Lemma getitem_wrap {A : Type} (l : list A) (i : Z) :
  - Z.of_nat (length l) <= i < Z.of_nat (length l) ->
  getitem l i = getitem l (i mod Z.of_nat (length l)).
Proof.
  intros H. unfold getitem. rewrite !index_indexable.
  - rewrite Z.mod_mod by lia. reflexivity.
  - pose proof (Z.mod_pos_bound i (Z.of_nat (length l))). lia.
  - exact H.
Qed.

Lemma setitem_wrap {A : Type} (l : list A) (i : Z) (a : A) :
  - Z.of_nat (length l) <= i < Z.of_nat (length l) ->
  setitem l i a = setitem l (i mod Z.of_nat (length l)) a.
Proof.
  intros H. unfold setitem. rewrite !index_indexable.
  - rewrite Z.mod_mod by lia. reflexivity.
  - pose proof (Z.mod_pos_bound i (Z.of_nat (length l))). lia.
  - exact H.
Qed.

Lemma wrap_in_range (num_classes label : Z) :
  indexable num_classes label -> 0 <= wrap num_classes label < num_classes.
Proof. unfold indexable, wrap. intros H. apply Z.mod_pos_bound. lia. Qed.

(** An indexable label is counted as the class it wraps to. *)
Lemma count_pair_wrap (num_classes : Z) (matrix : list (list Z))
    (actual predicted : Z) :
  square (Z.to_nat num_classes) matrix ->
  indexable num_classes actual ->
  indexable num_classes predicted ->
  count_pair num_classes matrix (actual, predicted)
  = count_pair num_classes matrix
      (wrap num_classes actual, wrap num_classes predicted).
Proof.
  intros [Hlen Hrows] Ha Hp.
  pose proof (wrap_in_range _ _ Ha) as Hwa.
  pose proof (wrap_in_range _ _ Hp) as Hwp.
  unfold indexable in Ha, Hp. unfold count_pair.
  assert (Hn : Z.of_nat (length matrix) = num_classes) by lia.
  destruct (Z.geb_spec actual num_classes); [lia|].
  destruct (Z.geb_spec predicted num_classes); [lia|].
  destruct (Z.geb_spec (wrap num_classes actual) num_classes); [lia|].
  destruct (Z.geb_spec (wrap num_classes predicted) num_classes); [lia|].
  cbn [orb]. unfold wrap in *.
  rewrite (getitem_wrap matrix actual) by lia. rewrite Hn.
  destruct (getitem matrix (actual mod num_classes)) as [row|] eqn:Erow;
    [|reflexivity].
  cbn [bind].
  destruct (getitem_ok _ _ _ [] Erow) as (k & _ & Hk & ->).
  set (row := nth k matrix []).
  assert (Hrow : Z.of_nat (length row) = num_classes).
  { rewrite (Hrows row) by (apply nth_In; exact Hk). lia. }
  rewrite (getitem_wrap row predicted) by lia. rewrite Hrow.
  destruct (getitem row (predicted mod num_classes)) as [v|]; [|reflexivity].
  cbn [bind].
  rewrite (setitem_wrap row predicted) by lia. rewrite Hrow.
  destruct (setitem row (predicted mod num_classes) (v + 1)) as [row'|];
    [|reflexivity].
  cbn [bind].
  rewrite (setitem_wrap matrix actual) by lia. rewrite Hn. reflexivity.
Qed.

Lemma count_pairs_wrap (num_classes : Z) (pairs : list (Z * Z)) :
  forall matrix,
  square (Z.to_nat num_classes) matrix ->
  Forall (fun s => indexable num_classes (fst s)
                   /\ indexable num_classes (snd s)) pairs ->
  count_pairs num_classes matrix pairs
  = count_pairs num_classes matrix
      (map (fun s => (wrap num_classes (fst s), wrap num_classes (snd s)))
           pairs)
  /\ exists matrix',
       count_pairs num_classes matrix pairs = Ok matrix'
       /\ square (Z.to_nat num_classes) matrix'.
Proof.
  induction pairs as [|[a p] rest IH]; intros matrix Hsq Hall.
  - split; [reflexivity|]. exists matrix. split; [reflexivity|exact Hsq].
  - inversion Hall as [|? ? [Ha Hp] Hrest]; subst. simpl in Ha, Hp.
    cbn [count_pairs map fst snd].
    rewrite (count_pair_wrap _ _ _ _ Hsq Ha Hp).
    destruct (count_pair_in_range num_classes matrix _ _ Hsq
                (wrap_in_range _ _ Ha) (wrap_in_range _ _ Hp))
      as (m1 & E1 & Hsq1 & _).
    rewrite E1. cbn [bind]. apply IH; assumption.
Qed.

Lemma combine_map_wrap (n : Z) (y_true y_pred : list Z) :
  map (fun s => (wrap n (fst s), wrap n (snd s))) (combine y_true y_pred)
  = combine (map (wrap n) y_true) (map (wrap n) y_pred).
Proof.
  revert y_pred. induction y_true as [|a t IH]; intros [|p q]; simpl;
    try reflexivity.
  rewrite IH. reflexivity.
Qed.

(** Labels in [[-num_classes, num_classes)] are all accepted: a negative
    label [l] is counted as the class [l mod num_classes], so the call
    returns what it returns for the wrapped labels, their table of counts. *)
Theorem get_confusion_matrix_wraps (y_true y_pred : list Z)
    (num_classes : Z) :
  length y_true = length y_pred ->
  Forall (indexable num_classes) y_true ->
  Forall (indexable num_classes) y_pred ->
  get_confusion_matrix y_true y_pred num_classes
  = get_confusion_matrix (map (wrap num_classes) y_true)
                         (map (wrap num_classes) y_pred) num_classes
  /\ get_confusion_matrix y_true y_pred num_classes
     = Ok (table (Z.to_nat num_classes)
             (combine (map (wrap num_classes) y_true)
                      (map (wrap num_classes) y_pred))).
Proof.
  intros Hlen Ht Hp.
  assert (E : get_confusion_matrix y_true y_pred num_classes
              = get_confusion_matrix (map (wrap num_classes) y_true)
                  (map (wrap num_classes) y_pred) num_classes).
  { unfold get_confusion_matrix. rewrite !length_map, Hlen, Nat.eqb_refl.
    simpl. rewrite <- combine_map_wrap.
    apply count_pairs_wrap; [apply square_zeros|].
    apply Forall_combine; assumption. }
  split; [exact E|]. rewrite E.
  unfold get_confusion_matrix. rewrite !length_map, Hlen, Nat.eqb_refl. simpl.
  assert (Hall : Forall (fun s => 0 <= fst s < num_classes
                                  /\ 0 <= snd s < num_classes)
                   (combine (map (wrap num_classes) y_true)
                            (map (wrap num_classes) y_pred))).
  { apply (Forall_combine (fun l => 0 <= l < num_classes));
      apply Forall_forall; intros l Hl; apply in_map_iff in Hl;
      destruct Hl as (x & <- & Hx); apply wrap_in_range.
    - rewrite Forall_forall in Ht. auto.
    - rewrite Forall_forall in Hp. auto. }
  destruct (count_pairs_in_range num_classes _ _ (square_zeros num_classes)
              Hall) as (m & Em & Hsq & Hcell).
  rewrite Em. f_equal. apply square_cells_table; [exact Hsq|].
  intros a p Ha Hp'. rewrite Hcell by assumption. rewrite cell_zeros. lia.
Qed.

Lemma get_confusion_matrix_wraps_example :
  get_confusion_matrix [-1; 0; -2] [1; -2; -1] 2
  = get_confusion_matrix (map (wrap 2) [-1; 0; -2]) (map (wrap 2) [1; -2; -1]) 2
  /\ get_confusion_matrix [-1; 0; -2] [1; -2; -1] 2
     = Ok (table (Z.to_nat 2)
             (combine (map (wrap 2) [-1; 0; -2]) (map (wrap 2) [1; -2; -1]))).
Proof.
  apply (get_confusion_matrix_wraps [-1; 0; -2] [1; -2; -1] 2).
  - reflexivity.
  - repeat constructor; unfold indexable; lia.
  - repeat constructor; unfold indexable; lia.
Defined.

(** *** The first sample with a label that is no index *)

Lemma combine_app {A B : Type} (l1 l2 : list A) (k1 k2 : list B) :
  length l1 = length k1 ->
  combine (l1 ++ l2) (k1 ++ k2) = combine l1 k1 ++ combine l2 k2.
Proof.
  revert k1. induction l1 as [|a l1 IH]; intros [|b k1] H; simpl in *;
    try discriminate; [reflexivity|].
  rewrite IH by lia. reflexivity.
Qed.

Lemma count_pairs_app (num_classes : Z) (pairs1 pairs2 : list (Z * Z)) :
  forall matrix,
  count_pairs num_classes matrix (pairs1 ++ pairs2)
  = (matrix' <- count_pairs num_classes matrix pairs1 ;;
     count_pairs num_classes matrix' pairs2).
Proof.
  induction pairs1 as [|s rest IH]; intros matrix; simpl; [reflexivity|].
  destruct (count_pair num_classes matrix s); simpl; [apply IH|reflexivity].
Qed.

(** A sample with a label outside [[-num_classes, num_classes)] stops the
    count: with the "invalid class" error if one of its labels is
    [num_classes] or more, with an [IndexError] otherwise. *)
Lemma count_pair_not_indexable (num_classes : Z) (matrix : list (list Z))
    (actual predicted : Z) :
  square (Z.to_nat num_classes) matrix ->
  ~ (indexable num_classes actual /\ indexable num_classes predicted) ->
  count_pair num_classes matrix (actual, predicted)
  = Raise (if (actual >=? num_classes) || (predicted >=? num_classes)
           then ValueError "Invalid prediction classes!"
           else IndexError).
Proof.
  intros [Hlen Hrows] Hbad. unfold indexable in Hbad. unfold count_pair.
  destruct (Z.geb_spec actual num_classes); [reflexivity|].
  destruct (Z.geb_spec predicted num_classes); [reflexivity|].
  cbn [orb].
  destruct (Z_le_dec (- num_classes) actual) as [Ha|Ha].
  - assert (Hn : Z.of_nat (length matrix) = num_classes) by lia.
    rewrite (getitem_wrap matrix actual) by lia. rewrite Hn.
    rewrite (getitem_in_bounds matrix (actual mod num_classes) [])
      by (rewrite Hn; apply Z.mod_pos_bound; lia).
    cbn [bind].
    set (row := nth _ matrix []).
    assert (Hrow : Z.of_nat (length row) = num_classes).
    { rewrite (Hrows row); [lia|]. apply nth_In.
      pose proof (Z.mod_pos_bound actual num_classes). lia. }
    unfold getitem at 1. rewrite index_not_indexable by lia. reflexivity.
  - unfold getitem. rewrite index_not_indexable by lia. reflexivity.
Qed.

(** Samples with indexable labels are counted; the first sample with a label
    that is no index decides the failure, whatever comes after it. *)
Theorem get_confusion_matrix_first_invalid
    (good_true good_pred rest_true rest_pred : list Z)
    (actual predicted num_classes : Z) :
  length good_true = length good_pred ->
  length rest_true = length rest_pred ->
  Forall (indexable num_classes) good_true ->
  Forall (indexable num_classes) good_pred ->
  ~ (indexable num_classes actual /\ indexable num_classes predicted) ->
  get_confusion_matrix (good_true ++ actual :: rest_true)
                       (good_pred ++ predicted :: rest_pred) num_classes
  = Raise (if (actual >=? num_classes) || (predicted >=? num_classes)
           then ValueError "Invalid prediction classes!"
           else IndexError).
Proof.
  intros Hgood Hrest Ht Hp Hbad. unfold get_confusion_matrix.
  rewrite !length_app. simpl length. rewrite Hgood, Hrest, Nat.eqb_refl.
  simpl negb. cbv iota.
  rewrite combine_app by exact Hgood. rewrite count_pairs_app.
  destruct (count_pairs_wrap num_classes (combine good_true good_pred)
              (zeros num_classes) (square_zeros num_classes)
              (Forall_combine _ _ _ Ht Hp)) as (_ & m & E & Hsq).
  rewrite E. cbn [bind combine count_pairs].
  rewrite (count_pair_not_indexable _ _ _ _ Hsq Hbad). reflexivity.
Qed.

Lemma get_confusion_matrix_first_invalid_example :
  get_confusion_matrix ([0; -1] ++ 1 :: [5]) ([1; 1] ++ -3 :: [0]) 2
  = Raise (if (1 >=? 2) || (-3 >=? 2)
           then ValueError "Invalid prediction classes!"
           else IndexError).
Proof.
  apply (get_confusion_matrix_first_invalid [0; -1] [1; 1] [5] [0] 1 (-3) 2).
  - reflexivity.
  - reflexivity.
  - repeat constructor; unfold indexable; lia.
  - repeat constructor; unfold indexable; lia.
  - unfold indexable. lia.
Defined.

(** *** The binary metrics *)

(** Lists of different lengths make the confusion matrix, for any number of
    classes and whatever the labels, and with it every metric fail with the
    shape error. *)
Theorem scores_shape_mismatch (y_true y_pred : list Z) :
  length y_true <> length y_pred ->
  let failure := ValueError "Invalid input shapes!" in
  (forall num_classes,
     get_confusion_matrix y_true y_pred num_classes = Raise failure)
  /\ get_quality_factors y_true y_pred = Raise failure
  /\ accuracy_score y_true y_pred = Raise failure
  /\ precision_score y_true y_pred = Raise failure
  /\ recall_score y_true y_pred = Raise failure
  /\ f1_score y_true y_pred = Raise failure.
Proof.
  intros H. cbv zeta.
  assert (E : get_quality_factors y_true y_pred
              = Raise (ValueError "Invalid input shapes!")).
  { unfold get_quality_factors.
    rewrite get_confusion_matrix_shape_mismatch by exact H. reflexivity. }
  unfold accuracy_score, precision_score, recall_score, f1_score.
  rewrite E. split; [|repeat split; reflexivity].
  intros n. apply get_confusion_matrix_shape_mismatch. exact H.
Qed.

Lemma scores_shape_mismatch_example :
  let failure := ValueError "Invalid input shapes!" in
  (forall num_classes,
     get_confusion_matrix [0; 1] [1] num_classes = Raise failure)
  /\ get_quality_factors [0; 1] [1] = Raise failure
  /\ accuracy_score [0; 1] [1] = Raise failure
  /\ precision_score [0; 1] [1] = Raise failure
  /\ recall_score [0; 1] [1] = Raise failure
  /\ f1_score [0; 1] [1] = Raise failure.
Proof.
  apply (scores_shape_mismatch [0; 1] [1]). simpl. discriminate.
Defined.

Lemma binary_in_range (labels : list Z) :
  Forall binary labels -> Forall (fun l => 0 <= l < 2) labels.
Proof.
  intros H. eapply Forall_impl; [|exact H]. unfold binary. intros l Hl. lia.
Qed.

(** For labels 0 and 1 the quality factors are the four counts. *)
Lemma get_quality_factors_counts (y_true y_pred : list Z) :
  length y_true = length y_pred ->
  Forall binary y_true -> Forall binary y_pred ->
  let pairs := combine y_true y_pred in
  get_quality_factors y_true y_pred
  = Ok (samples 0 0 pairs, samples 0 1 pairs,
        samples 1 0 pairs, samples 1 1 pairs).
Proof.
  intros Hlen Ht Hp pairs. unfold get_quality_factors.
  destruct (get_confusion_matrix_counts y_true y_pred 2 Hlen
              (binary_in_range _ Ht) (binary_in_range _ Hp))
    as (m & E & _ & Hcell).
  rewrite E. cbn [bind].
  rewrite !Hcell by lia. reflexivity.
Qed.

Lemma samples_nonneg (a p : Z) (pairs : list (Z * Z)) :
  0 <= samples a p pairs.
Proof. unfold samples. lia. Qed.

Lemma samples_cons (a p : Z) (sample : Z * Z) (rest : list (Z * Z)) :
  samples a p (sample :: rest)
  = (if hit a p sample then 1 else 0) + samples a p rest.
Proof.
  unfold samples. cbn [filter]. destruct (hit a p sample); cbn [length]; lia.
Qed.

Lemma matches_cons (sample : Z * Z) (rest : list (Z * Z)) :
  matches (sample :: rest)
  = (if fst sample =? snd sample then 1 else 0) + matches rest.
Proof.
  unfold matches. cbn [filter].
  destruct (fst sample =? snd sample); cbn [length]; lia.
Qed.

Lemma samples_binary_total (pairs : list (Z * Z)) :
  Forall (fun s => binary (fst s) /\ binary (snd s)) pairs ->
  samples 0 0 pairs + samples 0 1 pairs + samples 1 0 pairs + samples 1 1 pairs
  = Z.of_nat (length pairs)
  /\ samples 0 0 pairs + samples 1 1 pairs = matches pairs.
Proof.
  induction 1 as [|[a p] rest [Ha Hp] _ [IH1 IH2]].
  - split; reflexivity.
  - rewrite !samples_cons, matches_cons. cbn [length]. unfold hit, binary in *.
    cbn [fst snd] in *.
    destruct Ha as [-> | ->]; destruct Hp as [-> | ->];
      cbn [Z.eqb Pos.eqb andb]; lia.
Qed.

(** For labels 0 and 1, accuracy is the share of samples whose labels agree;
    it fails, with [ZeroDivisionError], exactly on empty lists. *)
Theorem accuracy_score_matches (y_true y_pred : list Z) :
  length y_true = length y_pred ->
  Forall binary y_true -> Forall binary y_pred ->
  (y_true = [] -> accuracy_score y_true y_pred = Raise ZeroDivisionError)
  /\ (y_true <> [] ->
      accuracy_score y_true y_pred
      = Ok (inject_Z (matches (combine y_true y_pred))
            / inject_Z (Z.of_nat (length y_true)))%Q).
Proof.
  intros Hlen Ht Hp. unfold accuracy_score.
  rewrite (get_quality_factors_counts _ _ Hlen Ht Hp). cbv zeta. cbn [bind].
  destruct (samples_binary_total _ (Forall_combine binary _ _ Ht Hp))
    as [Htot Hmatch].
  set (pairs := combine y_true y_pred) in *.
  replace (samples 1 1 pairs + samples 0 0 pairs) with (matches pairs) by lia.
  replace (samples 1 1 pairs + samples 1 0 pairs + samples 0 1 pairs
           + samples 0 0 pairs) with (Z.of_nat (length y_true)).
  - split; intros H; apply truediv_zero.
    + subst y_true. reflexivity.
    + destruct y_true; [contradiction|]. simpl length. lia.
  - assert (Hl : length pairs = length y_true).
    { unfold pairs. rewrite length_combine. lia. }
    rewrite <- Hl. lia.
Qed.

Lemma accuracy_score_matches_example :
  ([0; 1; 1] = [] -> accuracy_score [0; 1; 1] [0; 0; 1] = Raise ZeroDivisionError)
  /\ ([0; 1; 1] <> [] ->
      accuracy_score [0; 1; 1] [0; 0; 1]
      = Ok (Qdiv (inject_Z (matches (combine [0; 1; 1] [0; 0; 1])))
                 (inject_Z (Z.of_nat (length [0; 1; 1]))))).
Proof.
  apply (accuracy_score_matches [0; 1; 1] [0; 0; 1]).
  - reflexivity.
  - repeat constructor; unfold binary; lia.
  - repeat constructor; unfold binary; lia.
Defined.

Lemma samples_swap (a p : Z) (y_true y_pred : list Z) :
  samples a p (combine y_true y_pred) = samples p a (combine y_pred y_true).
Proof.
  revert y_pred. induction y_true as [|x t IH]; intros [|y q];
    try reflexivity.
  cbn [combine]. rewrite !samples_cons, IH. unfold hit. cbn [fst snd].
  rewrite (andb_comm (y =? p)). reflexivity.
Qed.

(** Exchanging the two lists exchanges precision and recall and leaves
    accuracy and F1 as they are. *)
Theorem scores_swap (y_true y_pred : list Z) :
  length y_true = length y_pred ->
  Forall binary y_true -> Forall binary y_pred ->
  precision_score y_pred y_true = recall_score y_true y_pred
  /\ recall_score y_pred y_true = precision_score y_true y_pred
  /\ accuracy_score y_pred y_true = accuracy_score y_true y_pred
  /\ f1_score y_pred y_true = f1_score y_true y_pred.
Proof.
  intros Hlen Ht Hp.
  unfold precision_score, recall_score, accuracy_score, f1_score.
  rewrite (get_quality_factors_counts _ _ Hlen Ht Hp).
  rewrite (get_quality_factors_counts _ _ (eq_sym Hlen) Hp Ht).
  cbv zeta. cbn [bind].
  rewrite !(samples_swap _ _ y_pred y_true).
  repeat split; f_equal; lia.
Qed.

Lemma scores_swap_example :
  precision_score [0; 0; 1; 1] [0; 1; 1; 0] = recall_score [0; 1; 1; 0] [0; 0; 1; 1]
  /\ recall_score [0; 0; 1; 1] [0; 1; 1; 0]
     = precision_score [0; 1; 1; 0] [0; 0; 1; 1]
  /\ accuracy_score [0; 0; 1; 1] [0; 1; 1; 0]
     = accuracy_score [0; 1; 1; 0] [0; 0; 1; 1]
  /\ f1_score [0; 0; 1; 1] [0; 1; 1; 0] = f1_score [0; 1; 1; 0] [0; 0; 1; 1].
Proof.
  apply (scores_swap [0; 1; 1; 0] [0; 0; 1; 1]).
  - reflexivity.
  - repeat constructor; unfold binary; lia.
  - repeat constructor; unfold binary; lia.
Defined.

(** *** Ratios *)

Lemma ratio_between_0_and_1 (a b : Z) :
  0 <= a <= b -> b <> 0 -> (0 <= inject_Z a / inject_Z b <= 1)%Q.
Proof.
  intros Hab Hb. destruct b as [|b|b]; try lia.
  unfold Qle, Qdiv, Qmult, Qinv, inject_Z. simpl. lia.
Qed.

Lemma square_two (matrix : list (list Z)) :
  square 2 matrix -> exists a b c d, matrix = [[a; b]; [c; d]].
Proof.
  intros [Hlen Hrows].
  destruct matrix as [|r0 [|r1 [|r2 rest]]]; try discriminate.
  assert (H0 : length r0 = 2%nat) by (apply Hrows; simpl; auto).
  assert (H1 : length r1 = 2%nat) by (apply Hrows; simpl; auto).
  destruct r0 as [|a [|b [|? ?]]]; try discriminate.
  destruct r1 as [|c [|d [|? ?]]]; try discriminate.
  exists a, b, c, d. reflexivity.
Qed.

(** Whenever the quality factors are returned, none of them is negative and
    they add up to the number of samples. *)
Lemma get_quality_factors_ok (y_true y_pred : list Z) (TN FP FN TP : Z) :
  get_quality_factors y_true y_pred = Ok (TN, FP, FN, TP) ->
  0 <= TN /\ 0 <= FP /\ 0 <= FN /\ 0 <= TP
  /\ TN + FP + FN + TP = Z.of_nat (length y_true).
Proof.
  unfold get_quality_factors.
  destruct (get_confusion_matrix y_true y_pred 2) as [m|] eqn:E;
    [|discriminate].
  apply get_confusion_matrix_ok_lengths in E. destruct E as [Hlen E].
  destruct (counted_zeros 2) as [Hc Ht].
  destruct (count_pairs_keeps _ _ _ _ _ Hc E) as [[Hsq Hpos] Htot].
  destruct (square_two _ Hsq) as (a & b & c & d & ->).
  cbn. intros H. inversion H. subst.
  rewrite Ht, length_combine, Hlen, Nat.min_id in Htot.
  unfold total in Htot. simpl in Htot.
  inversion Hpos as [|? ? Hr0 Hpos']. inversion Hpos' as [|? ? Hr1 _].
  inversion Hr0 as [|? ? ? Hr0']. inversion Hr0'.
  inversion Hr1 as [|? ? ? Hr1']. inversion Hr1'. subst.
  rewrite Hlen. lia.
Qed.

Lemma truediv_ok (a b : Z) (q : Q) :
  truediv a b = Ok q -> b <> 0 /\ q = (inject_Z a / inject_Z b)%Q.
Proof.
  unfold truediv. destruct (Z.eqb_spec b 0); [discriminate|].
  intros H. inversion H. auto.
Qed.

(** Every score that is returned lies between 0 and 1, whatever the
    labels. *)
Theorem scores_between_0_and_1 (y_true y_pred : list Z) (q : Q) :
  accuracy_score y_true y_pred = Ok q
  \/ precision_score y_true y_pred = Ok q
  \/ recall_score y_true y_pred = Ok q
  \/ f1_score y_true y_pred = Ok q ->
  (0 <= q <= 1)%Q.
Proof.
  unfold accuracy_score, precision_score, recall_score, f1_score.
  destruct (get_quality_factors y_true y_pred) as [[[[TN FP] FN] TP]|] eqn:E;
    cbn [bind]; [|intros [H|[H|[H|H]]]; discriminate].
  destruct (get_quality_factors_ok _ _ _ _ _ _ E) as (H1 & H2 & H3 & H4 & _).
  intros [H|[H|[H|H]]]; apply truediv_ok in H; destruct H as [Hb ->];
    apply ratio_between_0_and_1; lia.
Qed.

Lemma harmonic_mean (tp fp fn : Z) :
  0 <= tp -> 0 <= fp -> 0 <= fn -> tp + fp <> 0 -> tp + fn <> 0 ->
  let P := (inject_Z tp / inject_Z (tp + fp))%Q in
  let R := (inject_Z tp / inject_Z (tp + fn))%Q in
  let F := (inject_Z (2 * tp) / inject_Z (2 * tp + fp + fn))%Q in
  (~ (P + R == 0)%Q -> (F == 2 * P * R / (P + R))%Q)
  /\ ((P + R == 0)%Q -> (F == 0)%Q).
Proof.
  intros Htp Hfp Hfn H1 H2 P R F. subst P R F.
  assert (Hx : (0 <= inject_Z tp)%Q) by (rewrite <- (Zle_Qle 0); exact Htp).
  assert (Hy : (0 <= inject_Z fp)%Q) by (rewrite <- (Zle_Qle 0); exact Hfp).
  assert (Hz : (0 <= inject_Z fn)%Q) by (rewrite <- (Zle_Qle 0); exact Hfn).
  assert (Hxy : (0 < inject_Z tp + inject_Z fp)%Q).
  { rewrite <- inject_Z_plus, <- (Zlt_Qlt 0). lia. }
  assert (Hxz : (0 < inject_Z tp + inject_Z fn)%Q).
  { rewrite <- inject_Z_plus, <- (Zlt_Qlt 0). lia. }
  rewrite !inject_Z_plus, !inject_Z_mult.
  change (inject_Z 2) with 2%Q.
  set (x := inject_Z tp) in *. set (y := inject_Z fp) in *.
  set (z := inject_Z fn) in *.
  destruct (Qeq_dec x 0) as [Ex|Ex].
  - split.
    + intros H. exfalso. apply H. rewrite Ex. field. split; lra.
    + intros _. rewrite Ex. field. lra.
  - assert (Hpos : (0 < x)%Q) by (destruct (Qlt_le_dec 0 x) as [|Hle]; [assumption|];
      exfalso; apply Ex; lra).
    split.
    + intros _. field. repeat split; try lra. nra.
    + intros H. exfalso.
      assert (Hp : (0 < x / (x + y))%Q).
      { apply Qlt_shift_div_l; lra. }
      assert (Hr : (0 < x / (x + z))%Q).
      { apply Qlt_shift_div_l; lra. }
      lra.
Qed.

Lemma scores_between_0_and_1_example : (0 <= 2 # 3 <= 1)%Q.
Proof.
  apply (scores_between_0_and_1 [0; 1; 1; 0] [0; 1; 0; 0] (2 # 3)).
  right. right. right. reflexivity.
Defined.

(** On the exact ratios, before Python rounds each of them to a binary64:
    where precision [P] and recall [R] are both returned, F1 is returned
    too; its ratio is their harmonic mean [2PR/(P+R)], and 0 where both are
    0. The returned floats are each rounded from their own ratio, so the
    harmonic mean computed from the rounded [P] and [R] can differ from the
    returned F1 in the last digit. *)
Theorem f1_score_harmonic_mean (y_true y_pred : list Z) (P R : Q) :
  precision_score y_true y_pred = Ok P ->
  recall_score y_true y_pred = Ok R ->
  exists F,
    f1_score y_true y_pred = Ok F
    /\ (~ (P + R == 0)%Q -> (F == 2 * P * R / (P + R))%Q)
    /\ ((P + R == 0)%Q -> (F == 0)%Q).
Proof.
  unfold precision_score, recall_score, f1_score.
  destruct (get_quality_factors y_true y_pred) as [[[[TN FP] FN] TP]|] eqn:E;
    cbn [bind]; [|discriminate].
  destruct (get_quality_factors_ok _ _ _ _ _ _ E) as (_ & H2 & H3 & H4 & _).
  intros HP HR. apply truediv_ok in HP, HR.
  destruct HP as [HbP ->]. destruct HR as [HbR ->].
  exists (inject_Z (2 * TP) / inject_Z (2 * TP + FP + FN))%Q. split.
  - apply truediv_zero. lia.
  - apply harmonic_mean; assumption.
Qed.

Lemma f1_score_harmonic_mean_example :
  exists F,
    f1_score [0; 1; 1; 0] [0; 1; 0; 0] = Ok F
    /\ (~ (Qdiv (inject_Z 1) (inject_Z 1) + Qdiv (inject_Z 1) (inject_Z 2) == 0)%Q ->
        (F == 2 * Qdiv (inject_Z 1) (inject_Z 1) * Qdiv (inject_Z 1) (inject_Z 2)
              / (Qdiv (inject_Z 1) (inject_Z 1) + Qdiv (inject_Z 1) (inject_Z 2)))%Q)
    /\ ((Qdiv (inject_Z 1) (inject_Z 1) + Qdiv (inject_Z 1) (inject_Z 2) == 0)%Q ->
        (F == 0)%Q).
Proof.
  apply (f1_score_harmonic_mean [0; 1; 1; 0] [0; 1; 0; 0]); reflexivity.
Defined.

(** F1 fails on its division exactly when precision and recall both do,
    that is when no sample is positive in either list. *)
Theorem f1_score_fails_with_both (y_true y_pred : list Z) :
  f1_score y_true y_pred = Raise ZeroDivisionError
  <-> precision_score y_true y_pred = Raise ZeroDivisionError
      /\ recall_score y_true y_pred = Raise ZeroDivisionError.
Proof.
  unfold precision_score, recall_score, f1_score.
  destruct (get_quality_factors y_true y_pred) as [[[[TN FP] FN] TP]|] eqn:E;
    cbn [bind].
  - destruct (get_quality_factors_ok _ _ _ _ _ _ E) as (_ & H2 & H3 & H4 & _).
    unfold truediv.
    destruct (Z.eqb_spec (2 * TP + FP + FN) 0);
      destruct (Z.eqb_spec (TP + FP) 0); destruct (Z.eqb_spec (TP + FN) 0);
      split; try tauto; try lia; try (intros H; discriminate H);
      intros [Ha Hb]; try discriminate Ha; try discriminate Hb.
  - destruct e; split; try tauto; try discriminate;
      intros [Ha Hb]; assumption.
Qed.

End ClassificationFacts.
(** ** Facts about the polynomial formatter *)

Module FormatterFacts.
Import Py Py.Notations Formatter.

(** *** Strings as lists of characters *)

Lemma list_ascii_of_string_append (a b : string) :
  list_ascii_of_string (a ++ b)
  = list_ascii_of_string a ++ list_ascii_of_string b.
Proof. induction a as [|c a IH]; simpl; [|rewrite IH]; reflexivity. Qed.

Lemma string_of_list_ascii_app (a b : list ascii) :
  string_of_list_ascii (a ++ b)
  = (string_of_list_ascii a ++ string_of_list_ascii b)%string.
Proof. induction a as [|c a IH]; simpl; [|rewrite IH]; reflexivity. Qed.

Lemma append_assoc (a b c : string) :
  ((a ++ b) ++ c = a ++ (b ++ c))%string.
Proof. induction a as [|x a IH]; simpl; [|rewrite IH]; reflexivity. Qed.

Lemma append_empty_r (a : string) : (a ++ "")%string = a.
Proof. induction a as [|x a IH]; simpl; [|rewrite IH]; reflexivity. Qed.

(** *** The stripping loop *)

(** What the loop leaves of a text is left of it after any prefix too, as
    long as it leaves something. *)
Lemma strip_zeros_app (reversed kept prefix : list ascii) :
  strip_zeros reversed = Ok kept ->
  kept <> [] ->
  strip_zeros (reversed ++ prefix) = Ok (kept ++ prefix).
Proof.
  revert kept. induction reversed as [|last before IH]; intros kept E Hne.
  - simpl in E. inversion E. subst kept. contradiction.
  - simpl in E. simpl.
    destruct (Ascii.eqb last "0"); simpl in *.
    + destruct before as [|c before'].
      * discriminate.
      * simpl. destruct (Ascii.eqb c "."); simpl in *.
        -- inversion E. reflexivity.
        -- apply (IH kept E Hne).
    + inversion E. reflexivity.
Qed.

Lemma drop_trailing_zeros_snoc (digits : list ascii) (z : ascii) :
  drop_trailing_zeros (digits ++ [z])
  = if Ascii.eqb z "0" then drop_trailing_zeros digits else digits ++ [z].
Proof.
  induction digits as [|d digits IH].
  - simpl. destruct (Ascii.eqb z "0"); reflexivity.
  - cbn [app drop_trailing_zeros]. rewrite IH.
    destruct (Ascii.eqb z "0"); [reflexivity|].
    destruct digits; reflexivity.
Qed.

(** On a text that ends with a point and digits the loop stops at the first
    digit after the point at the latest. *)
Lemma strip_zeros_fraction (frac : list ascii) (d : ascii)
    (whole : list ascii) :
  Forall no_point (d :: frac) ->
  strip_zeros (rev frac ++ d :: "."%char :: whole)
  = Ok (rev (drop_trailing_zeros frac) ++ d :: "."%char :: whole).
Proof.
  induction frac as [|z frac IH] using rev_ind; intros Hdigits.
  - simpl. destruct (Ascii.eqb d "0"); reflexivity.
  - rewrite rev_unit, drop_trailing_zeros_snoc. cbn [app strip_zeros].
    assert (Hfrac : Forall no_point (d :: frac)).
    { inversion Hdigits as [|? ? Hd Hrest]; subst.
      constructor; [exact Hd|].
      apply Forall_app in Hrest. apply Hrest. }
    destruct (Ascii.eqb z "0") eqn:Ez; simpl.
    + rewrite <- (IH Hfrac).
      destruct (rev frac) as [|c t] eqn:Erev; simpl.
      * inversion Hfrac as [|? ? Hd _]. unfold no_point in Hd.
        rewrite Hd. reflexivity.
      * assert (Hc : no_point c).
        { inversion Hfrac as [|? ? _ Hrest]; subst.
          rewrite Forall_forall in Hrest. apply Hrest.
          apply in_rev. rewrite Erev. left. reflexivity. }
        unfold no_point in Hc. rewrite Hc. reflexivity.
    + rewrite rev_unit. reflexivity.
Qed.

Lemma split_point_whole (whole rest : list ascii) :
  Forall no_point whole ->
  split_point (whole ++ "."%char :: rest) = (whole, Some rest).
Proof.
  induction 1 as [|c whole Hc _ IH]; simpl.
  - reflexivity.
  - unfold no_point in Hc. rewrite Hc, IH. reflexivity.
Qed.

(** *** The decimal text *)

Lemma digit_char_no_point (n : N) : no_point (digit_char (n mod 10)).
Proof.
  assert (H : (n mod 10 < 10)%N) by (apply N.mod_lt; discriminate).
  unfold no_point.
  destruct (n mod 10)%N as [|[[[[|[]|]|[[]|[]|]|]|[[|[]|]|[[]|[]|]|]|]|[[[|[]|]|[[]|[]|]|]|[[|[]|]|[[]|[]|]|]|]|]];
    try reflexivity; exfalso; lia.
Qed.

Lemma low_digits_no_point (k : nat) (n : N) :
  Forall no_point (low_digits k n).
Proof.
  revert n. induction k as [|k IH]; intros n; simpl.
  - constructor.
  - apply Forall_app. split; [apply IH|].
    constructor; [apply digit_char_no_point|constructor].
Qed.

Lemma low_digits_nonempty (k : nat) (n : N) : low_digits (S k) n <> [].
Proof. simpl. intros H. apply app_eq_nil in H. destruct H. discriminate. Qed.

Lemma string_of_uint_no_point (d : Decimal.uint) :
  Forall no_point
    (list_ascii_of_string (DecimalString.NilEmpty.string_of_uint d)).
Proof.
  induction d; simpl; constructor; auto; reflexivity.
Qed.

(** The characters of a fixed-point text with a fractional part: no point
    before the point, then at least one digit. *)
Lemma fixed_point_chars (negative : bool) (n : N) (k : nat) :
  exists whole d frac,
    list_ascii_of_string (fixed_point negative n (S k))
    = whole ++ "."%char :: d :: frac
    /\ Forall no_point whole
    /\ Forall no_point (d :: frac).
Proof.
  pose proof (low_digits_no_point (S k) n) as Hdigits.
  pose proof (low_digits_nonempty k n) as Hne.
  destruct (low_digits (S k) n) as [|d frac] eqn:E; [contradiction|].
  exists (list_ascii_of_string
            ((if negative then "-" else "")
             ++ str_of_N (n / 10 ^ N.of_nat (S k)))%string), d, frac.
  split; [|split].
  - unfold fixed_point. rewrite E.
    rewrite <- append_assoc, list_ascii_of_string_append.
    cbn [list_ascii_of_string].
    rewrite list_ascii_of_string_of_list_ascii. reflexivity.
  - rewrite list_ascii_of_string_append. apply Forall_app. split.
    + destruct negative; simpl; constructor; [reflexivity|constructor].
    + apply string_of_uint_no_point.
  - exact Hdigits.
Qed.

(** On one fixed-point text the loop does what the specification says of a
    coefficient. *)
Lemma strip_fixed_point (negative : bool) (n : N) (k : nat) :
  strip (fixed_point negative n (S k))
  = Ok (coefficient_spec (fixed_point negative n (S k)))
  /\ coefficient_spec (fixed_point negative n (S k)) <> ""%string.
Proof.
  destruct (fixed_point_chars negative n k)
    as (whole & d & frac & E & Hwhole & Hfrac).
  assert (Hspec : coefficient_spec (fixed_point negative n (S k))
                  = string_of_list_ascii
                      (whole ++ "."%char :: d :: drop_trailing_zeros frac)).
  { unfold coefficient_spec. rewrite E, split_point_whole by exact Hwhole.
    reflexivity. }
  split.
  - unfold strip. rewrite E, Hspec, rev_app_distr. cbn [rev].
    rewrite <- !app_assoc. cbn [app].
    rewrite strip_zeros_fraction by exact Hfrac. cbn [fmap bind].
    rewrite rev_app_distr. cbn [rev]. rewrite !rev_involutive.
    rewrite <- !app_assoc. reflexivity.
  - rewrite Hspec. intros H.
    apply (f_equal list_ascii_of_string) in H.
    rewrite list_ascii_of_string_of_list_ascii in H. simpl in H.
    destruct whole; discriminate.
Qed.

Lemma strip_format_fixed (k : nat) (x : float) :
  strip (format_fixed (S k) x) = Ok (coefficient_spec (format_fixed (S k) x))
  /\ coefficient_spec (format_fixed (S k) x) <> ""%string.
Proof.
  unfold format_fixed. destruct (Prim2SF x) as [s|s| |s m e].
  - apply strip_fixed_point.
  - destruct s; split; try reflexivity; discriminate.
  - split; [reflexivity|discriminate].
  - apply strip_fixed_point.
Qed.

Lemma strip_append (polynomial text kept : string) :
  strip text = Ok kept ->
  kept <> ""%string ->
  strip (polynomial ++ text) = Ok (polynomial ++ kept)%string.
Proof.
  unfold strip. intros E Hne.
  destruct (strip_zeros (rev (list_ascii_of_string text))) as [r|] eqn:Er;
    [|discriminate].
  cbn [fmap bind] in E. inversion E as [Ek].
  rewrite list_ascii_of_string_append, rev_app_distr.
  rewrite (strip_zeros_app _ r _ Er).
  - cbn [fmap bind]. rewrite rev_app_distr, rev_involutive.
    rewrite string_of_list_ascii_app, string_of_list_ascii_of_string.
    reflexivity.
  - intros ->. apply Hne. rewrite <- Ek. reflexivity.
Qed.

(** *** The formatter meets its specification for a precision from 1 up to
    the largest one that [format] takes *)

Lemma print_terms_spec (k : nat) (theta : list float) :
  (Z.of_nat (S k) < 2 ^ 31)%Z ->
  forall (size i : nat) (polynomial : string),
  size = (i + length theta)%nat ->
  print_terms size (Z.of_nat (S k)) i theta polynomial
  = Ok (polynomial ++ String.concat " + " (terms_spec (S k) i theta))%string.
Proof.
  intros Hk.
  induction theta as [|coeff rest IH]; intros size i polynomial Hsize.
  - simpl. rewrite append_empty_r. reflexivity.
  - cbn [print_terms terms_spec].
    unfold format. replace (Z.of_nat (S k) <? 0)%Z with false
      by (symmetry; apply Z.ltb_ge; lia).
    replace (Z.of_nat (S k) <? 2 ^ 31)%Z with true
      by (symmetry; apply Z.ltb_lt; exact Hk).
    cbn [bind]. rewrite Nat2Z.id.
    destruct (strip_format_fixed k coeff) as [Estrip Hne].
    rewrite (strip_append _ _ _ Estrip Hne). cbn [bind].
    destruct rest as [|coeff' rest'].
    + replace (i =? size - 1)%nat with true
        by (symmetry; apply Nat.eqb_eq; simpl in Hsize; lia).
      cbn [negb print_terms terms_spec String.concat]. unfold term_spec.
      rewrite append_assoc. reflexivity.
    + replace (i =? size - 1)%nat with false
        by (symmetry; apply Nat.eqb_neq; simpl in Hsize; lia).
      cbn [negb]. rewrite IH by (simpl in Hsize |- *; lia).
      cbn [terms_spec String.concat]. unfold term_spec.
      rewrite !append_assoc. reflexivity.
Qed.

(** For every coefficient vector and every precision [p] with
    [1 <= p < 2^31] the call returns the text of the specification. *)
Lemma print_polynomial_meets_spec (theta : list float) (p : Z) :
  (1 <= p < 2 ^ 31)%Z ->
  print_polynomial theta p = Ok (print_polynomial_spec theta (Z.to_nat p)).
Proof.
  intros Hp. unfold print_polynomial, print_polynomial_spec.
  destruct (Z.to_nat p) as [|k] eqn:Ek; [lia|].
  replace p with (Z.of_nat (S k)) in * by lia.
  rewrite (print_terms_spec k theta (proj2 Hp) (length theta) 0 "")
    by reflexivity.
  reflexivity.
Qed.

(** Outside of that range the precision is refused at the first
    coefficient: a negative one as a missing precision, one from [2^31] on
    as too big. Without coefficients nothing is formatted, and the empty
    text is returned whatever the precision. *)
Theorem print_polynomial_precision_refused (coeff : float)
    (rest : list float) (p : Z) :
  ((p < 0)%Z ->
   print_polynomial (coeff :: rest) p
   = Raise (ValueError "Format specifier missing precision"))
  /\ ((2 ^ 31 <= p < 2 ^ 63)%Z ->
      print_polynomial (coeff :: rest) p
      = Raise (ValueError "precision too big"))
  /\ print_polynomial [] p = Ok ""%string.
Proof.
  split; [|split]; [intros Hp|intros Hp|reflexivity];
    unfold print_polynomial; cbn [print_terms]; unfold format.
  - replace (p <? 0)%Z with true by (symmetry; apply Z.ltb_lt; lia).
    reflexivity.
  - replace (p <? 0)%Z with false by (symmetry; apply Z.ltb_ge; lia).
    replace (p <? 2 ^ 31)%Z with false by (symmetry; apply Z.ltb_ge; lia).
    replace (p <? 2 ^ 63)%Z with true by (symmetry; apply Z.ltb_lt; lia).
    reflexivity.
Qed.

Lemma print_polynomial_precision_refused_example :
  (-1 < 0)%Z
  /\ print_polynomial [1.5%float] (-1)
     = Raise (ValueError "Format specifier missing precision").
Proof.
  split; [lia|].
  apply (proj1 (print_polynomial_precision_refused 1.5%float [] (-1))). lia.
Defined.

(** The example of the specification: precision 2 keeps one digit after the
    point and prints the zero coefficient too. *)
Lemma print_polynomial_example :
  print_polynomial [1.0; 0.0; -2.5]%float 2
  = Ok "1.0*x^0 + 0.0*x^1 + -2.5*x^2"%string.
Proof. vm_compute. reflexivity. Qed.

(** C6. With precision 0 the formatted coefficient has no point, and the
    stripping loop goes on into the integer digits: [10.0] is printed as
    [1], a zero coefficient after the first one loses its text, and a zero
    first coefficient ends in an [IndexError]. *)
Theorem print_polynomial_precision_zero :
  print_polynomial [10.0]%float 0 = Ok "1*x^0"%string
  /\ print_polynomial [1.0; 0.0]%float 0 = Ok "1*x^0 + *x^1"%string
  /\ print_polynomial [0.0; 1.0]%float 0 = Raise IndexError.
Proof. repeat split; vm_compute; reflexivity. Qed.

(** C10. [print_polynomial] is not total: at precision 0, a first coefficient
    that formats to the single character ["0"] makes the stripping loop read
    [polynomial[-2]] of a one-character string, and the call raises an
    [IndexError] instead of returning a string. *)
Theorem print_polynomial_index_error (coeff : float) (rest : list float) :
  format coeff 0 = Ok "0"%string ->
  print_polynomial (coeff :: rest) 0 = Raise IndexError.
Proof.
  intros E. unfold print_polynomial. cbn [print_terms].
  rewrite E. reflexivity.
Qed.

Lemma print_polynomial_index_error_zero :
  format 0.0%float 0 = Ok "0"%string
  /\ print_polynomial [0.0; 3.5]%float 0 = Raise IndexError.
Proof.
  split.
  - vm_compute. reflexivity.
  - apply (print_polynomial_index_error 0.0%float [3.5%float]).
    vm_compute. reflexivity.
Defined.

Lemma print_polynomial_meets_spec_example :
  print_polynomial [1.0; 0.0; -2.5]%float 2
  = Ok (print_polynomial_spec [1.0; 0.0; -2.5]%float (Z.to_nat 2)).
Proof.
  apply (print_polynomial_meets_spec [1.0; 0.0; -2.5]%float 2). lia.
Defined.

(** *** The polynomial form *)

(** For a degree [d >= 0] the form has [d + 1] rows; row [k] holds the
    exponent [k] alone, so the last row holds [d]. For a negative degree it
    is empty. *)
Theorem get_polynomial_form_rows (d : Z) :
  (0 <= d ->
   Z.of_nat (length (get_polynomial_form d)) = d + 1
   /\ (forall k, 0 <= k <= d -> getitem (get_polynomial_form d) k = Ok [k])
   /\ getitem (get_polynomial_form d) (-1) = Ok [d])%Z
  /\ (d < 0 -> get_polynomial_form d = [])%Z.
Proof.
  unfold get_polynomial_form. split.
  - intros Hd.
    assert (Hlen : Z.of_nat (length (map (fun k => [Z.of_nat k])
                                (seq 0 (Z.to_nat (1 + d))))) = (d + 1)%Z).
    { rewrite length_map, length_seq. lia. }
    split; [exact Hlen|]. split.
    + intros k Hk.
      rewrite (ClassificationFacts.getitem_in_bounds _ k []) by lia.
      rewrite ClassificationFacts.nth_map_seq by lia.
      rewrite Z2Nat.id by lia. reflexivity.
    + rewrite ClassificationFacts.getitem_wrap by lia. rewrite Hlen.
      rewrite (ClassificationFacts.getitem_in_bounds _ _ [])
        by (rewrite Hlen; apply Z.mod_pos_bound; lia).
      assert (Hmod : ((-1) mod (d + 1) = d)%Z).
      { symmetry. apply (Z.mod_unique_pos _ _ (-1)); lia. }
      rewrite Hmod, ClassificationFacts.nth_map_seq by lia.
      rewrite Z2Nat.id by lia. reflexivity.
  - intros Hd. replace (Z.to_nat (1 + d)) with 0%nat by lia. reflexivity.
Qed.

End FormatterFacts.
(** ** Facts about the least-squares solver and the evaluator *)

Module LeastSquaresFacts.
Import Py LeastSquares.

(** *** Lists *)




(** *** The design matrix *)







(** *** The inverse: shape and failure *)

Lemma factor_column_raise (done : list (list float)) (pivots : list nat)
    (b : list float) (e : exn) :
  factor_column done pivots b = Raise e -> e = LinAlgError "Singular matrix".
Proof.
  unfold factor_column. cbv zeta.
  destruct (nth _ _ 0 =? 0)%float; intros E; [|discriminate].
  injection E as <-. reflexivity.
Qed.

Lemma factorise_raise (columns : list (list float)) :
  forall done pivots e,
  factorise columns done pivots = Raise e -> e = LinAlgError "Singular matrix".
Proof.
  induction columns as [|b rest IH]; intros done pivots e E;
    [discriminate|].
  cbn [factorise] in E.
  destruct (factor_column done pivots b) as [s|e'] eqn:Eb; cbn [bind] in E.
  - exact (IH _ _ _ E).
  - injection E as <-. exact (factor_column_raise _ _ _ _ Eb).
Qed.


Lemma inv_raise (n : nat) (A : list (list float)) (e : exn) :
  inv n A = Raise e -> e = LinAlgError "Singular matrix".
Proof.
  unfold inv. intros E.
  destruct (factorise _ [] []) as [s|e'] eqn:Es; cbn [bind] in E;
    [discriminate|].
  injection E as <-. exact (factorise_raise _ _ _ _ Es).
Qed.







(** *** The evaluator, entry by entry *)




(** *** The solver *)







(** C3. For [X = [1; 2; 3; 4]], [Y = [1; 4; 9; 16]] and degree 2 the call
    returns three finite coefficients, each within [10^-12] of those of
    [x^2], and the evaluator maps them to four finite values, each within
    [10^-9] of the corresponding entry of [Y]. *)
Theorem least_squares_solution_quadratic :
  exists theta out,
  least_squares_solution [1; 2; 3; 4]%float [1; 4; 9; 16]%float 2 = Ok theta
  /\ Forall2 (within (1 # 1000000000000)) theta [0; 0; 1]%Q
  /\ generalised_linear_model [1; 2; 3; 4]%float theta = Array out
  /\ Forall2 (within (1 # 1000000000)) out
       (map value [1; 4; 9; 16]%float).
Proof.
  eexists. eexists. split; [vm_compute; reflexivity|].
  split; [|split; [vm_compute; reflexivity|]].
  - repeat constructor; apply Qle_bool_iff; vm_compute; reflexivity.
  - repeat constructor; apply Qle_bool_iff; vm_compute; reflexivity.
Qed.

(** *** The evaluator *)







(** *** More on the two functions *)

(** A [Y] that is not as long as [X] never gives coefficients: the call
    raises the [LinAlgError] of the inversion, or else the [ValueError] of
    the last product. *)
Theorem least_squares_solution_length_mismatch (X Y : list float) (d : nat) :
  length Y <> length X ->
  least_squares_solution X Y d = Raise (LinAlgError "Singular matrix")
  \/ least_squares_solution X Y d
     = Raise (ValueError (mismatch (length Y) (length X))).
Proof.
  intros HY. unfold least_squares_solution. cbv zeta.
  destruct (inv (S d) _) as [inverse|e] eqn:Einv; cbn [bind].
  - right. apply Nat.eqb_neq in HY. rewrite HY. reflexivity.
  - left. rewrite (inv_raise _ _ _ Einv). reflexivity.
Qed.

Lemma least_squares_solution_length_mismatch_example :
  length [1]%float <> length [0; 1]%float
  /\ least_squares_solution [0; 1]%float [1]%float 1
     = Raise (ValueError (mismatch 1 2)).
Proof.
  split; [discriminate|].
  destruct (least_squares_solution_length_mismatch [0; 1]%float [1]%float 1)
    as [E|E]; [discriminate | vm_compute in E; discriminate E | exact E].
Defined.

(** Without coefficients the evaluator returns the int 0 that [sum] starts
    from, whatever the evaluation points, and not an array. *)
Theorem generalised_linear_model_no_coefficient (X : list float) :
  generalised_linear_model X [] = Number 0.
Proof. reflexivity. Qed.

End LeastSquaresFacts.
